(** * Powerball CSV tools: column identification, date normalisation,
      merge and sort

    A shallow embedding of the two scripts of the repository,

      - [.github/workflows/sort_powerball.py]   (module [SortPowerball])
      - [.github/workflows/powerball_updater.py] (module [PowerballUpdater])

    together with the fragment of Python and pandas they call
    (module [Py] and module [Pd]).

    Conventions of the embedding.
      - A Python [str] is a [string] (a sequence of bytes; the headers and
        cells of the data set are ASCII).
      - A missing value ([None], [NaN], [NaT]) is [None] of an option type.
      - A [DataFrame] is its ordered list of column labels and its list of
        rows; a row maps a column label to the text of the cell, and a
        missing cell is an absent key.
      - The file system is a finite map from paths to file contents;
        printing appends to a log; an uncaught exception ends the process
        with exit code 1. *)

From Stdlib Require Import Ascii NArith Arith Lia.
From stdpp Require Import base option list sorting gmap strings.

(* ===================================================================== *)
(** ** Python built-ins used by the scripts *)
(* ===================================================================== *)

Module Py.

(** Code point of a character. *)
Definition ord (c : ascii) : nat := nat_of_ascii c.

Definition is_upper (c : ascii) : bool := (65 <=? ord c) && (ord c <=? 90).
Definition is_lower (c : ascii) : bool := (97 <=? ord c) && (ord c <=? 122).
Definition is_digit (c : ascii) : bool := (48 <=? ord c) && (ord c <=? 57).

(** [c.lower()] and [c.upper()] on one ASCII character. *)
Definition chr_lower (c : ascii) : ascii :=
  if is_upper c then ascii_of_nat (ord c + 32) else c.
Definition chr_upper (c : ascii) : ascii :=
  if is_lower c then ascii_of_nat (ord c - 32) else c.

(** [s.lower()], [s.upper()] (on ASCII; other bytes are left as they
    are). *)
Fixpoint lower (s : string) : string :=
  match s with
  | "" => ""
  | String c s' => String (chr_lower c) (lower s')
  end.
Fixpoint upper (s : string) : string :=
  match s with
  | "" => ""
  | String c s' => String (chr_upper c) (upper s')
  end.

(** [re.sub(cls, "", s)] for a character class [cls] given as a predicate:
    every character of the class is deleted. *)
Fixpoint re_sub_class (cls : ascii → bool) (s : string) : string :=
  match s with
  | "" => ""
  | String c s' =>
      if cls c then re_sub_class cls s' else String c (re_sub_class cls s')
  end.

(** The class [[^a-z0-9]]. *)
Definition not_lower_alnum (c : ascii) : bool :=
  negb (is_lower c || is_digit c).

(** [s.split(sep)[0]] for a one-character separator: the text before the
    first occurrence of [sep], the whole of [s] when there is none. *)
Fixpoint split_head (sep : ascii) (s : string) : string :=
  match s with
  | "" => ""
  | String c s' => if Ascii.eqb c sep then "" else String c (split_head sep s')
  end.

(** Every character of [s] satisfies [p]. *)
Fixpoint all_chars (p : ascii → bool) (s : string) : bool :=
  match s with
  | "" => true
  | String c s' => p c && all_chars p s'
  end.

(** A lower-case letter or a digit: the class [[a-z0-9]]. *)
Definition is_lower_alnum (c : ascii) : bool := is_lower c || is_digit c.

(** Truthiness of an optional string: [None] and [""] are falsy. *)
Definition truthy (v : option string) : bool :=
  match v with
  | Some (String _ _) => true
  | _ => false
  end.

(** [a or b]. *)
Definition or_ (a b : option string) : option string :=
  if truthy a then a else b.

(** How a process ends. *)
Inductive exit_status := Exit (code : nat).

(** A function call either returns or lets an exception escape. *)
Inductive completion := Returned | Raised.

End Py.

(* ===================================================================== *)
(** ** Calendar dates and their text form *)
(* ===================================================================== *)

(** [datetime.date]: a calendar day. *)
Record date := Date { year : nat; month : nat; day : nat }.

(** A pandas [Timestamp]: a calendar day and the seconds since midnight. *)
Record Timestamp := MkTimestamp { ts_date : date; ts_seconds : N }.

Global Instance date_eq_dec : EqDecision date.
Proof. solve_decision. Defined.
Global Instance Timestamp_eq_dec : EqDecision Timestamp.
Proof. solve_decision. Defined.

Definition is_leap (y : nat) : bool :=
  ((y mod 4 =? 0) && negb (y mod 100 =? 0)) || (y mod 400 =? 0).

Definition days_in_month (y m : nat) : nat :=
  match m with
  | 1 | 3 | 5 | 7 | 8 | 10 | 12 => 31
  | 4 | 6 | 9 | 11 => 30
  | 2 => if is_leap y then 29 else 28
  | _ => 0
  end.

(** [datetime.MAXYEAR], 9999. *)
Definition MAXYEAR : nat := 99 * 101.

(** The days [datetime.date] can hold. *)
Definition valid_date (d : date) : bool :=
  (1 <=? year d) && (year d <=? MAXYEAR) &&
  (1 <=? month d) && (month d <=? 12) &&
  (1 <=? day d) && (day d <=? days_in_month (year d) (month d)).

(** Chronological order, as Python compares dates and Timestamps. *)
Definition date_leb (a b : date) : bool :=
  (year a <? year b) ||
  ((year a =? year b) &&
   ((month a <? month b) || ((month a =? month b) && (day a <=? day b)))).

Definition ts_leb (a b : Timestamp) : bool :=
  if decide (ts_date a = ts_date b) then (ts_seconds a <=? ts_seconds b)%N
  else date_leb (ts_date a) (ts_date b).

(** One decimal digit as a character. *)
Definition digit (n : nat) : ascii := ascii_of_nat (48 + n mod 10).

(** [%02d] and [%04d]. *)
Definition pad2 (n : nat) (k : string) : string :=
  String (digit (n / 10)) (String (digit n) k).
Definition pad4 (n : nat) (k : string) : string :=
  String (digit (n / 1000)) (String (digit (n / 100))
    (String (digit (n / 10)) (String (digit n) k))).

(** [str(d)], [d.isoformat()], [d.strftime("%Y-%m-%d")]: the fixed-width
    text [YYYY-MM-DD]. *)
Definition isoformat (d : date) : string :=
  pad4 (year d)
    (String "-"%char (pad2 (month d) (String "-"%char (pad2 (day d) "")))).


(* ===================================================================== *)
(** ** The pandas operations used by the scripts *)
(* ===================================================================== *)

Module Pd.

(** A table: ordered column labels, and rows mapping a label to the text of
    the cell.  A missing cell ([NaN]) is an absent key. *)
Record DataFrame := MkDataFrame {
  columns : list string;
  rows : list (gmap string string)
}.

(** [df[c]]: the cells of column [c], row by row. *)
Definition column (df : DataFrame) (c : string) : list (option string) :=
  (λ r : gmap string string, r !! c) <$> rows df.

(** [df[c] = f(df[c])] for an element-wise [f] that leaves no cell missing. *)
Definition assign (c : string) (f : option string → string)
    (df : DataFrame) : DataFrame :=
  {| columns := columns df;
     rows := (λ r : gmap string string, <[c := f (r !! c)]> r) <$> rows df |}.

(** What the scripts ask of [pandas.to_datetime(..., errors="coerce")]: one
    cell of text becomes a Timestamp or [NaT].  The flag is [utc].  Which
    texts parse is left open here; [reader] below is one instance. *)
Class Parser := { to_datetime : bool → string → option Timestamp }.

(** [pandas.read_csv] (the flag is [dtype=str]; [None] when it raises) and
    [DataFrame.to_csv(path, index=False)] on the bytes of a file. *)
Class Csv := {
  read_csv : bool → string → option DataFrame;
  to_csv : DataFrame → string
}.

(** [to_datetime] on a cell: a missing cell is [NaT]. *)
Definition to_datetime_cell {parser : Parser} (utc : bool) (c : option string)
    : option Timestamp :=
  c ≫= to_datetime utc.

(** [Series.notna().sum()]. *)
Definition notna_sum {A} (s : list (option A)) : nat :=
  length (filter is_Some s).

(** [.dt.date] on one value. *)
Definition dt_date (t : option Timestamp) : option date := ts_date <$> t.

(** [.astype(str)] on one value of a column of dates: [str(NaT)] is the
    text [NaT]. *)
Definition date_astype_str (d : option date) : string :=
  match d with
  | Some d => isoformat d
  | None => "NaT"
  end.

(** [Series.max()] of Timestamps, [NaT] skipped; [NaT] when nothing is left. *)
Definition ts_max (a : Timestamp) (b : Timestamp) : Timestamp :=
  if ts_leb a b then b else a.

Definition series_max (s : list (option Timestamp)) : option Timestamp :=
  foldl (λ acc v,
           match acc, v with
           | Some a, Some b => Some (ts_max a b)
           | None, _ => v
           | _, None => acc
           end) None s.

(** [m] is the maximum of the series [s]: [NaT] when no value is left,
    else a value of [s] that no value of [s] exceeds. *)
Definition is_max (s : list (option Timestamp)) (m : option Timestamp) : Prop :=
  match m with
  | None => Forall (λ v, v = None) s
  | Some t => Some t ∈ s ∧ ∀ t', Some t' ∈ s → ts_leb t' t = true
  end.

Section sorting.
Context {A : Type}.

(** Stable two-way merge: on a tie the left element goes first. *)
Fixpoint merge (le : A → A → bool) (l1 : list A) : list A → list A :=
  fix merge_aux (l2 : list A) : list A :=
    match l1, l2 with
    | [], _ => l2
    | _, [] => l1
    | x1 :: l1', x2 :: l2' =>
        if le x1 x2 then x1 :: merge le l1' l2 else x2 :: merge_aux l2'
    end.

(** Top-down merge sort; [n] bounds the depth of the recursion. *)
Fixpoint merge_sort_upto (le : A → A → bool) (n : nat) (l : list A) : list A :=
  match n with
  | 0 => l
  | S n' =>
      match l with
      | [] | [_] => l
      | _ =>
          let k := length l / 2 in
          merge le (merge_sort_upto le n' (take k l))
                   (merge_sort_upto le n' (drop k l))
      end
  end.

(** [kind="mergesort"]: a stable sort. *)
Definition merge_sort (le : A → A → bool) (l : list A) : list A :=
  merge_sort_upto le (length l) l.

End sorting.

(** The rows that have a key, each with its key, in sorted order: sorted
    with the stable sort, and for a descending order between two
    reversals. *)
Definition sorted_part {A K} (leb : K → K → bool) (key : A → option K)
    (ascending : bool) (l : list A) : list (K * A) :=
  let le (a b : K * A) := leb a.1 b.1 in
  let non_nan := omap (λ r, k ← key r; Some (k, r)) l in
  if ascending then merge_sort le non_nan
  else reverse (merge_sort le (reverse non_nan)).

(** [DataFrame.sort_values(by, ascending=..., na_position="last")] on the
    rows, [key] reading the [by] column: the rows with a missing key are set
    aside and put last in their original order, after the sorted rows. *)
Definition sort_values {A K} (leb : K → K → bool) (key : A → option K)
    (ascending : bool) (l : list A) : list A :=
  let nan := filter (λ r, key r = None) l in
  (snd <$> sorted_part leb key ascending l) ++ nan.

(** [drop_duplicates(subset=[by], keep="last")]: a row is dropped when a
    later row has the same key (two missing keys are the same key). *)
Fixpoint drop_duplicates_last {A K} `{EqDecision K} (key : A → K)
    (l : list A) : list A :=
  match l with
  | [] => []
  | r :: l' =>
      if bool_decide (key r ∈ key <$> l') then drop_duplicates_last key l'
      else r :: drop_duplicates_last key l'
  end.

(** The order a sorted column shows: keys in the order [ord], missing keys
    last. *)
Definition na_last {A K} (ord : K → K → Prop) (key : A → option K)
    (r1 r2 : A) : Prop :=
  match key r1, key r2 with
  | Some a, Some b => ord a b
  | _, None => True
  | None, Some _ => False
  end.

(** The order asked for: ascending or descending in [leb]. *)
Definition direction {K} (leb : K → K → bool) (ascending : bool)
    (a b : K) : Prop :=
  if ascending then leb a b = true else leb b a = true.

(** Order of Python strings (by code point). *)
Definition str_leb (a b : string) : bool := String.leb a b.

(** *** A reader for the date formats of the data set

    A model of [pandas.to_datetime] on the forms the data set and the API
    use: [YYYY-MM-DD], optionally followed by [T] or a blank and
    [HH:MM:SS] with an optional [Z], and [MM/DD/YYYY].  Every other text is
    [NaT].  The times are UTC, so the [utc] flag changes nothing. *)

Definition digits2 (a b : ascii) : option nat :=
  x ← Ascii.is_nat a; y ← Ascii.is_nat b; Some (10 * x + y).

Definition digits4 (a b c d : ascii) : option nat :=
  x ← digits2 a b; y ← digits2 c d; Some (100 * x + y).

Definition mk_date (y m d : nat) : option date :=
  if valid_date (Date y m d) then Some (Date y m d) else None.

Definition parse_time (s : string) : option N :=
  match s with
  | String h1 (String h2 (String c2 (String m1 (String m2 (String c5
      (String s1 (String s2 rest))))))) =>
      h ← digits2 h1 h2; m ← digits2 m1 m2; sec ← digits2 s1 s2;
      if Ascii.eqb c2 ":" && Ascii.eqb c5 ":" &&
         (h <? 24) && (m <? 60) && (sec <? 60) &&
         (String.eqb rest "" || String.eqb rest "Z")
      then Some (N.of_nat h * 3600 + N.of_nat m * 60 + N.of_nat sec)%N else None
  | _ => None
  end.

Definition parse_timestamp (s : string) : option Timestamp :=
  match s with
  | String c0 (String c1 (String c2 (String c3 (String c4
      (String c5 (String c6 (String c7 (String c8 (String c9 rest))))))))) =>
      if Ascii.eqb c4 "-" && Ascii.eqb c7 "-" then
        y ← digits4 c0 c1 c2 c3; m ← digits2 c5 c6; d ← digits2 c8 c9;
        dt ← mk_date y m d;
        match rest with
        | "" => Some (MkTimestamp dt 0)
        | String sep t =>
            if Ascii.eqb sep "T" || Ascii.eqb sep " "
            then MkTimestamp dt <$> parse_time t else None
        end
      else if Ascii.eqb c2 "/" && Ascii.eqb c5 "/" && String.eqb rest "" then
        m ← digits2 c0 c1; d ← digits2 c3 c4; y ← digits4 c6 c7 c8 c9;
        dt ← mk_date y m d;
        Some (MkTimestamp dt 0)
      else None
  | _ => None
  end.

Definition reader : Parser := {| to_datetime := λ _, parse_timestamp |}.

(** *** A codec for plain CSV files

    A model of [read_csv] and [to_csv] on files without quoting: lines end
    with a line feed, fields are separated by commas, the first line is the
    header, an empty field is a missing cell, blank lines are skipped.  An
    empty file and a line with more fields than the header make [read_csv]
    raise. *)

Fixpoint split_on (sep : ascii) (s : string) : list string :=
  match s with
  | "" => [""]
  | String c s' =>
      if Ascii.eqb c sep then "" :: split_on sep s'
      else match split_on sep s' with
           | [] => [String c ""]
           | h :: t => String c h :: t
           end
  end.

Fixpoint join (sep : string) (l : list string) : string :=
  match l with
  | [] => ""
  | [x] => x
  | x :: l' => x +:+ sep +:+ join sep l'
  end.

Definition non_empty (s : string) : bool :=
  match s with "" => false | _ => true end.

Definition plain_row (header fields : list string) : gmap string string :=
  list_to_map (filter (λ kv : string * string, non_empty kv.2)
                 (zip header fields)).

Definition plain_read (bytes : string) : option DataFrame :=
  match filter non_empty (split_on "010" bytes) with
  | [] => None
  | h :: body =>
      let header := split_on "," h in
      let lines := split_on "," <$> body in
      if forallb (λ fs, length fs <=? length header) lines
      then Some {| columns := header; rows := plain_row header <$> lines |}
      else None
  end.

Definition plain_line (cols : list string) (r : gmap string string) : string :=
  join "," ((λ c, default "" (r !! c)) <$> cols) +:+ String "010" "".

Definition plain_write (df : DataFrame) : string :=
  join "," (columns df) +:+ String "010" "" +:+
  foldr (λ r acc, plain_line (columns df) r +:+ acc) "" (rows df).

Definition plain_csv : Csv :=
  {| read_csv := λ _, plain_read; to_csv := plain_write |}.

End Pd.

(* ===================================================================== *)
(** ** sort_powerball.py *)
(* ===================================================================== *)

Module SortPowerball.

(** What the script prints. *)
Inductive message :=
  | SkipNotFound (csv_path : string)
  | SkipNoDateColumn (csv_path : string) (headers : list string)
  | SortedBy (csv_path : string) (col : string).

(** The files on disk and the lines printed so far. *)
Record world := World {
  files : gmap string string;
  stdout : list message
}.

Definition print (m : message) (w : world) : world :=
  {| files := files w; stdout := stdout w ++ [m] |}.

Definition write (path : string) (content : string) (w : world) : world :=
  {| files := <[path := content]> (files w); stdout := stdout w |}.

(** [FILES = [Path(p) for p in sys.argv[1:]] or [Path("data/powerball.csv")]];
    [argv] is [sys.argv[1:]]. *)
Definition FILES (argv : list string) : list string :=
  match argv with
  | [] => ["data/powerball.csv"]
  | _ => argv
  end.

Definition DATE_CANDIDATES : gset string :=
  list_to_set
    ["drawdate"; "draw_date"; "date"; "drawingdate"; "draw_dt"; "draw"].

(** [re.sub(r"[^a-z0-9]", "", s.lower())] *)
Definition norm (s : string) : string :=
  Py.re_sub_class Py.not_lower_alnum (Py.lower s).

Section script.
Context {parser : Pd.Parser} {csv : Pd.Csv}.

(** First loop of [guess_date_col]: the first header whose normal form is a
    candidate. *)
Definition name_match (cols : list string) : option string :=
  snd <$> list_find (λ c, norm c ∈ DATE_CANDIDATES) cols.

(** [pd.to_datetime(df[c], errors="coerce", utc=True).notna().sum()] *)
Definition hits (df : Pd.DataFrame) (c : string) : Z :=
  Z.of_nat (Pd.notna_sum (Pd.to_datetime_cell true <$> Pd.column df c)).

(** Body of the second loop, on the pair [(best_col, best_hits)]. *)
Definition content_step (df : Pd.DataFrame)
    (best : option string * Z) (c : string) : option string * Z :=
  let h := hits df c in
  if (best.2 <? h)%Z && (0 <? h)%Z then (Some c, h) else best.

(** What the pair [(best_col, best_hits)] is after the columns [seen] (the
    invariant of the second loop). *)
Definition best_of (df : Pd.DataFrame) (seen : list string)
    (best : option string * Z) : Prop :=
  match best.1 with
  | None => best.2 = (-1)%Z ∧ Forall (λ c, hits df c = 0%Z) seen
  | Some b =>
      best.2 = hits df b ∧ (0 < hits df b)%Z ∧
      Forall (λ c, (hits df c ≤ hits df b)%Z) seen ∧
      ∃ i, seen !! i = Some b ∧
           ∀ j c, seen !! j = Some c → j < i → (hits df c < hits df b)%Z
  end.

Definition content_match (df : Pd.DataFrame) : option string :=
  (foldl (content_step df) (None, (-1)%Z) (Pd.columns df)).1.

Definition guess_date_col (df : Pd.DataFrame) : option string :=
  match name_match (Pd.columns df) with
  | Some c => Some c
  | None => content_match df
  end.

(** One cell through line 40:
    [pd.to_datetime(..., errors="coerce", utc=True).dt.date.astype(str)]. *)
Definition normalize_date (c : option string) : string :=
  Pd.date_astype_str (Pd.dt_date (Pd.to_datetime_cell true c)).

(** The frame after line 40 and after line 43. *)
Definition cleaned (col : string) (df : Pd.DataFrame) : Pd.DataFrame :=
  Pd.assign col normalize_date df.

Definition date_key (col : string) (r : gmap string string) : option string :=
  r !! col.

Definition sorted_frame (col : string) (df : Pd.DataFrame) : Pd.DataFrame :=
  {| Pd.columns := Pd.columns df;
     Pd.rows := Pd.sort_values Pd.str_leb (date_key col) false
                  (Pd.rows (cleaned col df)) |}.

Definition sort_file (csv_path : string) (w : world) : world * Py.completion :=
  match files w !! csv_path with
  | None => (print (SkipNotFound csv_path) w, Py.Returned)
  | Some bytes =>
      match Pd.read_csv true bytes with
      | None => (w, Py.Raised)
      | Some df =>
          match guess_date_col df with
          | Some (String _ _ as col) =>
              (print (SortedBy csv_path col)
                 (write csv_path (Pd.to_csv (sorted_frame col df)) w),
               Py.Returned)
          | _ => (print (SkipNoDateColumn csv_path (Pd.columns df)) w,
                  Py.Returned)
          end
      end
  end.

(** [main]: the loop over [FILES]; an exception ends it. *)
Fixpoint main (fs : list string) (w : world) : world * Py.completion :=
  match fs with
  | [] => (w, Py.Returned)
  | f :: fs' =>
      match sort_file f w with
      | (w', Py.Returned) => main fs' w'
      | (w', Py.Raised) => (w', Py.Raised)
      end
  end.

(** [sys.exit(main())]: [main] returns [None], which is exit code 0; an
    uncaught exception is exit code 1. *)
Definition run (argv : list string) (w : world) : world * Py.exit_status :=
  match main (FILES argv) w with
  | (w', Py.Returned) => (w', Py.Exit 0)
  | (w', Py.Raised) => (w', Py.Exit 1)
  end.

(** What happened to one file: it was skipped, it was rewritten, or an
    exception escaped.  A call that returns has printed one line, which
    tells the first two apart. *)
Inductive outcome := Skipped | Rewritten | Failed.

Definition file_outcome (csv_path : string) (w : world) : outcome :=
  match sort_file csv_path w with
  | (_, Py.Raised) => Failed
  | (w', Py.Returned) =>
      match last (stdout w') with
      | Some (SortedBy _ _) => Rewritten
      | _ => Skipped
      end
  end.

(** A file the sorter skips: it is missing, or no date-like column is found
    in it. *)
Definition skips (disk : gmap string string) (csv_path : string) : Prop :=
  disk !! csv_path = None ∨
  ∃ bytes df, disk !! csv_path = Some bytes ∧
              Pd.read_csv true bytes = Some df ∧ guess_date_col df = None.

(** The exit code tells the outcome of the last file: two runs on one file
    with the same exit code had the same outcome. *)
Definition exit_code_reflects_outcome : Prop :=
  ∀ csv_path w1 w2,
    (run [csv_path] w1).2 = (run [csv_path] w2).2 →
    file_outcome csv_path w1 = file_outcome csv_path w2.

End script.
End SortPowerball.

(* ===================================================================== *)
(** ** powerball_updater.py *)
(* ===================================================================== *)

Module PowerballUpdater.

Definition DATASET_ID : string := "d6yy-54nr".
Definition BASE : string := "https://data.ny.gov/resource/".

(** The GET request of [fetch_since]: the URL and the three query
    parameters. *)
Record request := Request {
  url : string;
  where_ : string;
  order : string;
  limit : N
}.

(** [requests.get(...)], [raise_for_status()] and [r.json()]: the records of
    the response, or [None] when one of the three raises. *)
Class Http := { requests_get : request → option (list (gmap string string)) }.

(** What the script prints, on stdout or stderr. *)
Inductive message :=
  | ErrCsvNotFound (csv_path : string)
  | ErrNoDateColumn
  | LastDate (last_date_iso : string)
  | UpToDate
  | Appending (n : nat)
  | Saved (csv_path : string).

(** The files on disk, the lines printed and the requests sent so far. *)
Record world := World {
  files : gmap string string;
  stdout : list message;
  stderr : list message;
  requests : list request
}.

Definition print (m : message) (w : world) : world :=
  {| files := files w; stdout := stdout w ++ [m];
     stderr := stderr w; requests := requests w |}.

Definition eprint (m : message) (w : world) : world :=
  {| files := files w; stdout := stdout w;
     stderr := stderr w ++ [m]; requests := requests w |}.

Definition send (q : request) (w : world) : world :=
  {| files := files w; stdout := stdout w;
     stderr := stderr w; requests := requests w ++ [q] |}.

Definition write (path : string) (content : string) (w : world) : world :=
  {| files := <[path := content]> (files w); stdout := stdout w;
     stderr := stderr w; requests := requests w |}.

Definition out_cols : list string :=
  ["Draw Date"; "Winning Numbers"; "Multiplier"].

(** The name options of lines 67 to 69. *)
Definition date_options : list string :=
  ["Draw Date"; "draw_date"; "Draw date"; "date"].
Definition nums_options : list string :=
  ["Winning Numbers"; "winning_numbers"; "Winning numbers"].
Definition mult_options : list string :=
  ["Multiplier"; "multiplier"; "Power Play"; "powerplay"; "power_play"].

(** A row of [df_new] before line 94: the date still a [datetime.date]. *)
Record fetched := Fetched {
  draw_date : option date;
  winning_numbers : option string;
  multiplier : option string
}.

(** The query of [fetch_since]. *)
Definition query (date_iso : string) : request :=
  {| url := BASE +:+ DATASET_ID +:+ ".json";
     where_ := "draw_date > '" +:+ date_iso +:+ "'";
     order := "draw_date asc";
     limit := 50000 |}.

(** The text kept as ["Draw Date"] of one API record (line 41). *)
Definition api_date (draw_date : option string) : option string :=
  if Py.truthy draw_date then Py.split_head "T" <$> draw_date else None.

Section script.
Context {parser : Pd.Parser} {csv : Pd.Csv} {http : Http}.

(** Lines 37 to 47 on one record of the response. *)
Definition record_of (row : gmap string string) : fetched :=
  let draw_date :=
    Py.or_ (Py.or_ (row !! "draw_date") (row !! "drawdate")) (row !! "date") in
  let winning_numbers :=
    Py.or_ (row !! "winning_numbers") (row !! "winningnumbers") in
  let multiplier :=
    Py.or_ (Py.or_ (row !! "multiplier") (row !! "power_play"))
           (row !! "powerplay") in
  {| draw_date := Pd.dt_date (Pd.to_datetime_cell false (api_date draw_date));
     winning_numbers := winning_numbers;
     multiplier := multiplier |}.


(** [fetch_since]: the request is sent; the result is [None] when the call
    raises, else the rows of [df_new] sorted by date.  The sort of line 48
    is of the default kind, which is not stable: it is the stable sort here,
    and the two agree when the fetched dates are distinct
    ([sort_values_forced]). *)
Definition fetch_since (date_iso : string) (w : world)
    : world * option (list fetched) :=
  let w' := send (query date_iso) w in
  match requests_get (query date_iso) with
  | None => (w', None)
  | Some [] => (w', Some [])
  | Some data =>
      (w', Some (Pd.sort_values date_leb draw_date true (record_of <$> data)))
  end.

(** [pick] of [main]; [columns] is [df.columns]. *)
Definition pick (columns : list string) (name_options : list string)
    : option string :=
  snd <$> list_find (λ n, n ∈ columns) name_options.

(** [df.rename(columns=mapping)]. *)
Definition rename (mapping : gmap string string) (df : Pd.DataFrame)
    : Pd.DataFrame :=
  let f c := default c (mapping !! c) in
  {| Pd.columns := f <$> Pd.columns df;
     Pd.rows := (λ r : gmap string string, kmap (M2 := gmap string) f r)
                  <$> Pd.rows df |}.

(** [if c not in df.columns: df[c] = None]. *)
Definition fill_missing (c : string) (df : Pd.DataFrame) : Pd.DataFrame :=
  if bool_decide (c ∈ Pd.columns df) then df
  else {| Pd.columns := Pd.columns df ++ [c];
          Pd.rows := (λ r : gmap string string, delete c r) <$> Pd.rows df |}.

(** [df[cols]]. *)
Definition select (cols : list string) (df : Pd.DataFrame) : Pd.DataFrame :=
  {| Pd.columns := cols;
     Pd.rows := (λ r : gmap string string,
                   filter (λ kv : string * string, kv.1 ∈ cols) r)
                  <$> Pd.rows df |}.

(** Lines 96 to 106: the existing table under the target column names. *)
Definition df_existing (date_col : string) (nums_col mult_col : option string)
    (df : Pd.DataFrame) : Pd.DataFrame :=
  match nums_col, mult_col with
  | Some n, Some m =>
      rename (<[date_col := "Draw Date"]>
                (<[n := "Winning Numbers"]> {[ m := "Multiplier" ]})) df
  | Some n, None =>
      fill_missing "Multiplier"
        (rename (<[date_col := "Draw Date"]> {[ n := "Winning Numbers" ]}) df)
  | None, _ =>
      fill_missing "Multiplier"
        (fill_missing "Winning Numbers"
           (rename {[ date_col := "Draw Date" ]} df))
  end.

(** Line 94 and the columns of [df_new] as a row of text. *)
Definition new_row (r : fetched) : gmap string string :=
  let put (c : string) (v : option string) (m : gmap string string) :=
    match v with Some x => <[c := x]> m | None => m end in
  put "Draw Date" (Some (Pd.date_astype_str (draw_date r)))
    (put "Winning Numbers" (winning_numbers r)
       (put "Multiplier" (multiplier r) ∅)).

Definition draw_date_key (r : gmap string string) : option string :=
  r !! "Draw Date".

(** Lines 108 and 109 on the rows of [df_existing[out_cols]] and of
    [df_new[out_cols]].  The sort is of the default kind; on the keys left
    by [drop_duplicates], which are distinct, every sort gives the same
    result ([merge_order_forced]). *)
Definition merge (existing new : list (gmap string string))
    : list (gmap string string) :=
  Pd.sort_values Pd.str_leb draw_date_key true
    (Pd.drop_duplicates_last draw_date_key (existing ++ new)).

(** The canonical draw date of a row of the merged table: its ["Draw Date"]
    read as a date. *)
Definition canonical_date (r : gmap string string) : option date :=
  Pd.dt_date (Pd.to_datetime_cell false (draw_date_key r)).

(** Lines 75 to 81. *)
Definition last_date_iso (date_col : string) (df : Pd.DataFrame) : string :=
  match Pd.series_max (Pd.to_datetime_cell false <$> Pd.column df date_col) with
  | None => "2009-12-31"
  | Some last_date => isoformat (ts_date last_date)
  end.

(** [main].  The column [_parsed_draw_date] of line 75 is only read on
    line 76 and is dropped by [df_existing[out_cols]]; it is not kept in the
    frame here.  The cells of the date column are text (or missing), as
    [read_csv] leaves dates. *)
Definition main (csv_path : string) (w : world) : world * Py.exit_status :=
  match files w !! csv_path with
  | None => (eprint (ErrCsvNotFound csv_path) w, Py.Exit 2)
  | Some bytes =>
      match Pd.read_csv false bytes with
      | None => (w, Py.Exit 1)
      | Some df =>
          let date_col := pick (Pd.columns df) date_options in
          let nums_col := pick (Pd.columns df) nums_options in
          let mult_col := pick (Pd.columns df) mult_options in
          match date_col with
          | None => (eprint ErrNoDateColumn w, Py.Exit 3)
          | Some date_col =>
              let since := last_date_iso date_col df in
              let w1 := print (LastDate since) w in
              match fetch_since since w1 with
              | (w2, None) => (w2, Py.Exit 1)
              | (w2, Some []) => (print UpToDate w2, Py.Exit 0)
              | (w2, Some df_new) =>
                  let w3 := print (Appending (length df_new)) w2 in
                  let existing :=
                    select out_cols (df_existing date_col nums_col mult_col df) in
                  let merged :=
                    {| Pd.columns := out_cols;
                       Pd.rows := merge (Pd.rows existing) (new_row <$> df_new) |} in
                  (print (Saved csv_path)
                     (write csv_path (Pd.to_csv merged) w3), Py.Exit 0)
              end
          end
      end
  end.

End script.
End PowerballUpdater.

(* ===================================================================== *)
(** ** Sample data *)
(* ===================================================================== *)

(** A row of the three target columns. *)
Definition draw (d w m : string) : gmap string string :=
  {[ "Draw Date" := d; "Winning Numbers" := w; "Multiplier" := m ]}.

Definition LF : string := String "010" "".

(** A file whose date header is spelled [DRAW-DATE], and the same file with
    the header [Draw Date]. *)
Definition upper_header_csv : string :=
  "DRAW-DATE,Winning Numbers,Multiplier" +:+ LF +:+
  "2024-01-03,1 2 3 4 5 6,2" +:+ LF.
Definition plain_header_csv : string :=
  "Draw Date,Winning Numbers,Multiplier" +:+ LF +:+
  "2024-01-03,1 2 3 4 5 6,2" +:+ LF.

Definition disk (path content : string) : PowerballUpdater.world :=
  {| PowerballUpdater.files := {[ path := content ]};
     PowerballUpdater.stdout := []; PowerballUpdater.stderr := [];
     PowerballUpdater.requests := [] |}.

(** A table without a date-like header: the columns [When] and [Also] hold
    two dates each, the column [Game] none. *)
Definition untitled_dates : Pd.DataFrame :=
  {| Pd.columns := ["Game"; "When"; "Also"];
     Pd.rows :=
       [ {[ "Game" := "pb"; "When" := "01/03/2024"; "Also" := "2024-01-03" ]};
         {[ "Game" := "pb"; "When" := "01/06/2024"; "Also" := "2024-01-06" ]};
         {[ "Game" := "pb"; "When" := "soon"; "Also" := "later" ]} ] |}.

(** A table with a date that does not parse between two that do. *)
Definition with_garbage : Pd.DataFrame :=
  {| Pd.columns := ["Draw Date"; "Winning Numbers"; "Multiplier"];
     Pd.rows := [draw "2024-01-03" "1 2 3 4 5 6" "2";
                 draw "garbage" "7 8 9 10 11 12" "3";
                 draw "2024-01-06" "13 14 15 16 17 18" "4"] |}.

Definition with_garbage_csv : string :=
  "Draw Date,Winning Numbers,Multiplier" +:+ LF +:+
  "2024-01-03,1 2 3 4 5 6,2" +:+ LF +:+
  "garbage,7 8 9 10 11 12,3" +:+ LF +:+
  "2024-01-06,13 14 15 16 17 18,4" +:+ LF.

Definition sorter_disk (path content : string) : SortPowerball.world :=
  {| SortPowerball.files := {[ path := content ]};
     SortPowerball.stdout := [] |}.

(** A file whose dates do not parse, and a file without a date header. *)
Definition undated_csv : string :=
  "Draw Date,Winning Numbers,Multiplier" +:+ LF +:+
  "unknown,1 2 3 4 5 6,2" +:+ LF +:+
  "tbd,7 8 9 10 11 12,3" +:+ LF.
Definition header_only_csv : string :=
  "Draw Date,Winning Numbers,Multiplier" +:+ LF.
Definition no_date_header_csv : string :=
  "Numbers,Multiplier" +:+ LF +:+ "1 2 3 4 5 6,2" +:+ LF.

(** A table whose first column has a date-like name and no date, and whose
    second column has dates under another name. *)
Definition named_without_dates : Pd.DataFrame :=
  {| Pd.columns := ["Date"; "When"];
     Pd.rows := [ {[ "Date" := "n/a"; "When" := "2024-01-03" ]};
                  {[ "Date" := "n/a"; "When" := "2024-01-06" ]} ] |}.

(** A disk with an empty file, which [read_csv] refuses, and a good file. *)
Definition empty_and_good : SortPowerball.world :=
  {| SortPowerball.files :=
       {[ "empty.csv" := ""; "good.csv" := with_garbage_csv ]};
     SortPowerball.stdout := [] |}.




(** A server with nothing new. *)
Definition no_news : PowerballUpdater.Http :=
  {| PowerballUpdater.requests_get := λ _, Some [] |}.

(** The three cells of a row of the target columns. *)
Definition cells (r : gmap string string)
    : option string * option string * option string :=
  (r !! "Draw Date", r !! "Winning Numbers", r !! "Multiplier").

(* ===================================================================== *)
(** ** Facts about the sorting and de-duplication primitives *)
(* ===================================================================== *)

(** *** Lists *)

Lemma NoDup_fmap_eq {A B} (f : A → B) (l : list A) x y :
  NoDup (f <$> l) → x ∈ l → y ∈ l → f x = f y → x = y.
Proof.
  induction l as [|z l IH]; [by intros _ ?%elem_of_nil|].
  rewrite fmap_cons, NoDup_cons, !elem_of_cons.
  intros [Hz Hl] [->|Hx] [->|Hy] E; auto.
  - destruct Hz. rewrite E. by apply list_elem_of_fmap_2.
  - destruct Hz. rewrite <-E. by apply list_elem_of_fmap_2.
Qed.

Lemma StronglySorted_impl_elem {A} (R1 R2 : relation A) (l : list A) :
  (∀ x y, x ∈ l → y ∈ l → R1 x y → R2 x y) →
  StronglySorted R1 l → StronglySorted R2 l.
Proof.
  intros HR Hs. induction Hs as [|x l Hs IH Hall]; [constructor|].
  constructor.
  - apply IH. intros a b Ha Hb. apply HR; by right.
  - apply Forall_forall. intros y Hy. apply HR; [by left|by right|].
    exact (proj1 (Forall_forall _ _) Hall y Hy).
Qed.

Lemma StronglySorted_lookup_lt {A} (R : relation A) (l : list A) i j x y :
  StronglySorted R l → l !! i = Some x → l !! j = Some y → i < j → R x y.
Proof.
  intros Hs. revert i j. induction Hs as [|z l Hs IH Hall]; intros i j.
  { by rewrite lookup_nil. }
  destruct i as [|i], j as [|j]; cbn; intros Hi Hj Hlt; try lia.
  - injection Hi as ->. apply list_elem_of_lookup_2 in Hj.
    exact (proj1 (Forall_forall _ _) Hall y Hj).
  - apply (IH i j); [done..|lia].
Qed.

Section merge_sort_facts.
Context {A : Type} (le : A → A → bool).

Local Abbreviation R := (λ x y : A, le x y = true).

Lemma filter_none (P : A → Prop) `{!∀ x, Decision (P x)} (l : list A) :
  Forall (λ x, ¬ P x) l → filter P l = [].
Proof.
  induction 1 as [|x l Hx _ IH]; [done|].
  by rewrite filter_cons, decide_False.
Qed.

Lemma filter_twice (P : A → Prop) (H1 H2 : ∀ x, Decision (P x)) (l : list A) :
  filter (H := H1) P (filter (H := H2) P l) = filter (H := H1) P l.
Proof.
  induction l as [|x l IH]; [done|].
  destruct (H1 x) as [Hx|Hx].
  - rewrite !filter_cons_True by done. by f_equal.
  - by rewrite !filter_cons_False.
Qed.

Lemma merge_nil_l l2 : Pd.merge le [] l2 = l2.
Proof. by destruct l2. Qed.

Lemma merge_nil_r l1 : Pd.merge le l1 [] = l1.
Proof. by destruct l1. Qed.

Lemma merge_cons x1 l1 x2 l2 :
  Pd.merge le (x1 :: l1) (x2 :: l2) =
  if le x1 x2 then x1 :: Pd.merge le l1 (x2 :: l2)
  else x2 :: Pd.merge le (x1 :: l1) l2.
Proof. done. Qed.

Lemma merge_perm l1 l2 : Pd.merge le l1 l2 ≡ₚ l1 ++ l2.
Proof.
  revert l2. induction l1 as [|x1 l1 IH1]; intros l2.
  { by rewrite merge_nil_l. }
  induction l2 as [|x2 l2 IH2].
  { by rewrite merge_nil_r, app_nil_r. }
  rewrite merge_cons. destruct (le x1 x2).
  - by rewrite IH1.
  - rewrite IH2. by rewrite (Permutation_middle (x1 :: l1) l2 x2).
Qed.

Lemma merge_sort_upto_perm n l : Pd.merge_sort_upto le n l ≡ₚ l.
Proof.
  revert l. induction n as [|n IH]; intros l; [done|].
  destruct l as [|x [|y l]]; [done..|].
  cbn [Pd.merge_sort_upto].
  rewrite merge_perm, !IH. by rewrite take_drop.
Qed.

Lemma merge_sort_perm l : Pd.merge_sort le l ≡ₚ l.
Proof. apply merge_sort_upto_perm. Qed.

(** Rows of one class [P] of mutually comparable keys keep their order
    through a merge whose left argument is sorted. *)
Lemma merge_filter (P : A → Prop) `{!∀ x, Decision (P x)} l1 l2 :
  (∀ x y z, le x y = true → le y z = true → le x z = true) →
  (∀ x y, P x → P y → le x y = true) →
  StronglySorted R l1 →
  filter P (Pd.merge le l1 l2) = filter P l1 ++ filter P l2.
Proof.
  intros Htrans HP. revert l2. induction l1 as [|x1 l1 IH1]; intros l2 Hs.
  { by rewrite merge_nil_l. }
  induction l2 as [|x2 l2 IH2].
  { by rewrite merge_nil_r, app_nil_r. }
  rewrite merge_cons. destruct (le x1 x2) eqn:Hle.
  - apply StronglySorted_cons in Hs as [? ?].
    rewrite !(filter_cons _ x1), IH1 by done. by destruct (decide (P x1)).
  - rewrite (filter_cons _ x2), IH2. rewrite (filter_cons _ x2 l2).
    destruct (decide (P x2)) as [H2|]; [|done].
    assert (filter P (x1 :: l1) = []) as ->; [|done].
    apply StronglySorted_cons in Hs as [Hall _].
    apply filter_none. constructor.
    + intros H1. by rewrite (HP x1 x2) in Hle.
    + eapply Forall_impl; [exact Hall|]. intros y Hy Py. cbn in Hy.
      by rewrite (Htrans x1 y x2) in Hle; auto.
Qed.

Lemma merge_sorted l1 l2 :
  (∀ x y, le x y = false → le y x = true) →
  (∀ x y z, le x y = true → le y z = true → le x z = true) →
  StronglySorted R l1 → StronglySorted R l2 →
  StronglySorted R (Pd.merge le l1 l2).
Proof.
  intros Htot Htrans. revert l2.
  induction l1 as [|x1 l1 IH1]; intros l2 H1 H2.
  { by rewrite merge_nil_l. }
  induction l2 as [|x2 l2 IH2].
  { by rewrite merge_nil_r. }
  rewrite merge_cons.
  pose proof H1 as [Ha1 Hs1]%StronglySorted_cons.
  pose proof H2 as [Ha2 Hs2]%StronglySorted_cons.
  destruct (le x1 x2) eqn:Hle.
  - apply StronglySorted_cons. split; [|by apply IH1].
    rewrite merge_perm. apply Forall_app. split; [done|].
    constructor; [done|]. eapply Forall_impl; [exact Ha2|]. cbn. eauto.
  - apply Htot in Hle. apply StronglySorted_cons. split; [|by apply IH2].
    rewrite merge_perm. apply Forall_app. split; [|done].
    constructor; [done|]. eapply Forall_impl; [exact Ha1|]. cbn. eauto.
Qed.

Section total_order.
Hypothesis le_total : ∀ x y, le x y = false → le y x = true.
Hypothesis le_trans : ∀ x y z, le x y = true → le y z = true → le x z = true.

Lemma merge_sort_upto_sorted n l :
  length l ≤ n → StronglySorted R (Pd.merge_sort_upto le n l).
Proof.
  revert l. induction n as [|n IH]; intros l Hn.
  { destruct l; [constructor|simpl in Hn; lia]. }
  destruct l as [|x [|y l]]; [repeat constructor..|].
  cbn [Pd.merge_sort_upto].
  assert (1 ≤ length (x :: y :: l) / 2 < length (x :: y :: l)) as Hk.
  { cbn [length]. split.
    - apply Nat.div_le_lower_bound; lia.
    - apply Nat.div_lt; lia. }
  apply merge_sorted; [done..| |]; apply IH.
  - rewrite length_take. lia.
  - rewrite length_drop. lia.
Qed.

Lemma merge_sort_sorted l : StronglySorted R (Pd.merge_sort le l).
Proof. by apply merge_sort_upto_sorted. Qed.

Lemma merge_sort_upto_stable (P : A → Prop) `{!∀ x, Decision (P x)} n l :
  (∀ x y, P x → P y → le x y = true) →
  length l ≤ n →
  filter P (Pd.merge_sort_upto le n l) = filter P l.
Proof.
  intros HP. revert l. induction n as [|n IH]; intros l Hn; [done|].
  destruct l as [|x [|y l]]; [done..|].
  cbn [Pd.merge_sort_upto].
  assert (1 ≤ length (x :: y :: l) / 2 < length (x :: y :: l)) as Hk.
  { cbn [length]. split.
    - apply Nat.div_le_lower_bound; lia.
    - apply Nat.div_lt; lia. }
  rewrite merge_filter; [|done..|].
  - rewrite !IH, <-filter_app, take_drop; [done|..].
    + rewrite length_drop. lia.
    + rewrite length_take. lia.
  - apply merge_sort_upto_sorted. rewrite length_take. lia.
Qed.

(** The merge sort is stable: the rows of a class of equal keys come out in
    the order they went in. *)
Lemma merge_sort_stable (P : A → Prop) `{!∀ x, Decision (P x)} l :
  (∀ x y, P x → P y → le x y = true) →
  filter P (Pd.merge_sort le l) = filter P l.
Proof. intros. by apply merge_sort_upto_stable. Qed.

End total_order.
End merge_sort_facts.

Section sort_values_facts.
Context {A K : Type} `{!EqDecision K} (leb : K → K → bool) (key : A → option K).

Local Abbreviation keyed := (omap (λ r : A, k ← key r; Some (k, r))).
Local Abbreviation le := (λ a b : K * A, leb a.1 b.1).

Lemma keyed_key (l : list A) :
  Forall (λ p : K * A, key p.2 = Some p.1) (keyed l).
Proof.
  apply Forall_forall. intros [k r] (r' & _ & Hr)%list_elem_of_omap.
  destruct (key r') eqn:E; simplify_eq/=. done.
Qed.

Lemma keyed_snd (l : list A) :
  snd <$> keyed l = filter (λ r, is_Some (key r)) l.
Proof.
  induction l as [|r l IH]; [done|].
  rewrite filter_cons. cbn [omap list_omap].
  destruct (key r) eqn:E; cbn.
  - rewrite decide_True by eauto. cbn. by f_equal.
  - rewrite decide_False by (by intros [? ?]). done.
Qed.

Lemma keyed_class (k : K) (l : list A) :
  snd <$> filter (λ p : K * A, p.1 = k) (keyed l) =
  filter (λ r, key r = Some k) l.
Proof.
  induction l as [|r l IH]; [done|].
  rewrite (filter_cons _ r). cbn [omap list_omap].
  destruct (key r) as [k'|] eqn:E; cbn.
  - destruct (decide (k' = k)) as [->|Hne].
    + rewrite decide_True by done. cbn. by f_equal.
    + rewrite decide_False by congruence. done.
  - rewrite decide_False by done. done.
Qed.

Lemma filter_class_snd (k : K) (L : list (K * A)) :
  Forall (λ p : K * A, key p.2 = Some p.1) L →
  filter (λ r, key r = Some k) (snd <$> L) =
  snd <$> filter (λ p : K * A, p.1 = k) L.
Proof.
  induction 1 as [|[k' r] L Hp _ IH]; [done|].
  cbn in Hp. rewrite fmap_cons, !filter_cons. cbn. rewrite Hp, IH.
  destruct (decide (k' = k)) as [->|Hne].
  - by rewrite decide_True.
  - by rewrite decide_False by congruence.
Qed.

Lemma filter_missing_snd `{!∀ r, Decision (key r = None)} (L : list (K * A)) :
  Forall (λ p : K * A, key p.2 = Some p.1) L →
  filter (λ r, key r = None) (snd <$> L) = [].
Proof.
  intros HL. apply filter_none, Forall_fmap.
  eapply Forall_impl; [exact HL|]. intros [k r] Hp; cbn in *. congruence.
Qed.

Lemma StronglySorted_reverse {B} (R : relation B) (l : list B) :
  StronglySorted R l → StronglySorted (flip R) (reverse l).
Proof.
  induction 1 as [|x l Hs IH Hall]; [constructor|].
  rewrite reverse_cons. apply StronglySorted_app. split_and!.
  - intros y z Hy ->%list_elem_of_singleton.
    rewrite elem_of_reverse in Hy.
    exact (proj1 (Forall_forall _ _) Hall y Hy).
  - done.
  - repeat constructor.
Qed.

Lemma keyed_sorted (ord : K → K → Prop) (L : list (K * A)) :
  Forall (λ p : K * A, key p.2 = Some p.1) L →
  StronglySorted (λ p q : K * A, ord p.1 q.1) L →
  StronglySorted (Pd.na_last ord key) (snd <$> L).
Proof.
  intros HL Hs. induction Hs as [|p L Hs IH Hall]; [constructor|].
  apply Forall_cons in HL as [Hp HL].
  rewrite fmap_cons. constructor; [by apply IH|].
  apply Forall_fmap, Forall_forall. intros q Hq. cbn.
  unfold Pd.na_last. rewrite Hp.
  rewrite (proj1 (Forall_forall _ _) HL q Hq).
  exact (proj1 (Forall_forall _ _) Hall q Hq).
Qed.

Local Abbreviation sorted_part := (Pd.sorted_part leb key).

Lemma sort_values_unfold ascending l :
  Pd.sort_values leb key ascending l =
  (snd <$> sorted_part ascending l) ++ filter (λ r, key r = None) l.
Proof. done. Qed.

Lemma sorted_part_perm ascending l : sorted_part ascending l ≡ₚ keyed l.
Proof.
  unfold Pd.sorted_part. destruct ascending.
  - apply merge_sort_perm.
  - by rewrite reverse_Permutation, merge_sort_perm, reverse_Permutation.
Qed.

Lemma sorted_part_key ascending l :
  Forall (λ p : K * A, key p.2 = Some p.1) (sorted_part ascending l).
Proof. rewrite sorted_part_perm. apply keyed_key. Qed.

(** [sort_values] rearranges the rows and neither loses nor invents one. *)
Lemma sort_values_perm ascending l :
  Pd.sort_values leb key ascending l ≡ₚ l.
Proof.
  rewrite sort_values_unfold, sorted_part_perm, keyed_snd.
  rewrite <-(filter_app_complement (λ r, is_Some (key r)) l) at 3.
  f_equiv. erewrite list_filter_iff; [done|]. intros r.
  by rewrite <-eq_None_not_Some.
Qed.

Section total_order.
Hypothesis leb_total : ∀ x y, leb x y = false → leb y x = true.
Hypothesis leb_trans : ∀ x y z, leb x y = true → leb y z = true → leb x z = true.

Lemma leb_refl x : leb x x = true.
Proof.
  destruct (leb x x) eqn:E; [done|].
  pose proof (leb_total _ _ E). congruence.
Qed.

(** [sort_values] is stable: the rows of one key, and the rows without a
    key, come out in the order they went in. *)
Lemma sort_values_stable ascending (k : option K) l :
  filter (λ r, key r = k) (Pd.sort_values leb key ascending l) =
  filter (λ r, key r = k) l.
Proof.
  rewrite sort_values_unfold, filter_app.
  destruct k as [k|].
  - rewrite (filter_none (λ r, key r = Some k) (filter _ l)), app_nil_r.
    2:{ apply Forall_forall. intros r [Hr _]%list_elem_of_filter. congruence. }
    rewrite filter_class_snd by apply sorted_part_key.
    rewrite <-keyed_class. f_equal.
    assert (∀ x y : K * A, x.1 = k → y.1 = k → le x y = true) as Hcls.
    { intros x y -> ->. apply leb_refl. }
    unfold Pd.sorted_part. destruct ascending.
    + apply merge_sort_stable; eauto.
    + rewrite filter_reverse, merge_sort_stable by eauto.
      by rewrite filter_reverse, reverse_involutive.
  - rewrite filter_missing_snd by apply sorted_part_key.
    cbn. apply filter_twice.
Qed.

(** The result of [sort_values] is in the order asked for, missing keys
    last. *)
Lemma sort_values_sorted ascending l :
  StronglySorted (Pd.na_last (Pd.direction leb ascending) key)
    (Pd.sort_values leb key ascending l).
Proof.
  rewrite sort_values_unfold. apply StronglySorted_app. split_and!.
  - intros r1 r2 _ [Hr2 _]%list_elem_of_filter.
    unfold Pd.na_last. rewrite Hr2. by destruct (key r1).
  - apply keyed_sorted; [apply sorted_part_key|].
    unfold Pd.sorted_part, Pd.direction. destruct ascending.
    + apply (merge_sort_sorted le); eauto.
    + apply (StronglySorted_reverse (λ p q : K * A, le p q = true)).
      apply (merge_sort_sorted le); eauto.
  - induction l as [|r l IH]; [constructor|].
    rewrite filter_cons. destruct (decide (key r = None)); [|done].
    constructor; [done|]. apply Forall_forall.
    intros r2 [Hr2 _]%list_elem_of_filter.
    unfold Pd.na_last. rewrite Hr2. by destruct (key r).
Qed.

(** On rows with distinct keys the order asked for leaves one arrangement
    only: whatever algorithm sorts them ([kind="quicksort"] is the default
    of pandas and is not stable), the result is this one. *)
Lemma sort_values_forced ascending l l' :
  (∀ x y, leb x y = true → leb y x = true → x = y) →
  NoDup (key <$> l) → l' ≡ₚ l →
  StronglySorted (Pd.na_last (Pd.direction leb ascending) key) l' →
  l' = Pd.sort_values leb key ascending l.
Proof.
  intros Hanti Hnd Hperm Hs.
  apply (StronglySorted_unique_strong
           (Pd.na_last (Pd.direction leb ascending) key));
    [|done|apply sort_values_sorted|by rewrite sort_values_perm].
  intros x y Hx Hy Hxy Hyx. rewrite Hperm in Hx.
  rewrite sort_values_perm in Hy.
  apply (NoDup_fmap_eq key l); [done..|].
  unfold Pd.na_last, Pd.direction in Hxy, Hyx.
  destruct (key x) as [a|], (key y) as [b|]; try done.
  f_equal. destruct ascending; by apply Hanti.
Qed.

End total_order.
End sort_values_facts.

Section drop_duplicates_facts.
Context {A K : Type} `{!EqDecision K} (key : A → K).

Lemma drop_duplicates_last_elem_of r l :
  r ∈ Pd.drop_duplicates_last key l → r ∈ l.
Proof.
  induction l as [|x l IH]; cbn; [done|].
  case_bool_decide; rewrite ?elem_of_cons; [auto|].
  intros [->|?]; auto.
Qed.

(** At most one row per key is left. *)
Lemma drop_duplicates_last_NoDup l :
  NoDup (key <$> Pd.drop_duplicates_last key l).
Proof.
  induction l as [|x l IH]; cbn; [constructor|].
  case_bool_decide as Hx; [done|].
  rewrite fmap_cons. constructor; [|done].
  intros (y & Hy & Hin)%list_elem_of_fmap. apply Hx.
  rewrite Hy. apply list_elem_of_fmap_2.
  by apply drop_duplicates_last_elem_of.
Qed.

(** For every key, the row left is the last row of the input with that
    key. *)
Lemma drop_duplicates_last_class (k : K) l :
  filter (λ r, key r = k) (Pd.drop_duplicates_last key l) =
  option_list (last (filter (λ r, key r = k) l)).
Proof.
  induction l as [|x l IH]; cbn [Pd.drop_duplicates_last]; [done|].
  rewrite (filter_cons _ x l).
  case_bool_decide as Hx.
  - rewrite IH. destruct (decide (key x = k)) as [Hk|]; [|done].
    rewrite last_cons.
    destruct (last (filter (λ r, key r = k) l)) eqn:E; [done|].
    apply last_None in E. exfalso.
    apply list_elem_of_fmap in Hx as (y & Hy & Hin).
    eapply (filter_nil_not_elem_of _ _ y); [exact E| |exact Hin]. congruence.
  - rewrite filter_cons, IH. destruct (decide (key x = k)) as [Hk|]; [|done].
    assert (filter (λ r, key r = k) l = []) as ->; [|done].
    apply filter_none, Forall_forall. intros y Hy Hky. apply Hx.
    rewrite Hk, <-Hky. by apply list_elem_of_fmap_2.
Qed.

End drop_duplicates_facts.

(** *** The order of Python strings *)

Lemma str_leb_total x y : Pd.str_leb x y = false → Pd.str_leb y x = true.
Proof.
  unfold Pd.str_leb. intros H.
  destruct (String.leb_total x y) as [E|E]; congruence.
Qed.

Lemma str_leb_trans x y z :
  Pd.str_leb x y = true → Pd.str_leb y z = true → Pd.str_leb x z = true.
Proof.
  unfold Pd.str_leb. intros H1 H2. apply Is_true_true.
  apply Is_true_true in H1, H2.
  exact (transitivity (R := String.le) H1 H2).
Qed.

Lemma str_leb_antisym x y :
  Pd.str_leb x y = true → Pd.str_leb y x = true → x = y.
Proof. apply String.leb_antisym. Qed.

(** *** The text of a date *)



Lemma is_nat_digit n : Ascii.is_nat (digit n) = Some (n mod 10).
Proof.
  unfold digit. pose proof (Nat.mod_upper_bound n 10 ltac:(lia)) as Hm.
  set (m := n mod 10) in *. clearbody m.
  do 10 (destruct m as [|m]; [reflexivity|]). lia.
Qed.

(** Quotient and remainder by ten, as linear facts. *)
Local Ltac by_ten a :=
  pose proof (Nat.div_mod_eq a 10);
  pose proof (Nat.mod_upper_bound a 10 ltac:(lia)).

Lemma digits2_digit n :
  n < 100 → Pd.digits2 (digit (n / 10)) (digit n) = Some n.
Proof.
  intros Hn. unfold Pd.digits2. rewrite !is_nat_digit.
  cbn [mbind option_bind]. f_equal.
  by_ten n. by_ten (n / 10). lia.
Qed.

Lemma digits4_digit n :
  n ≤ MAXYEAR →
  Pd.digits4 (digit (n / 1000)) (digit (n / 100)) (digit (n / 10)) (digit n)
  = Some n.
Proof.
  unfold MAXYEAR. intros Hn.
  unfold Pd.digits4, Pd.digits2. rewrite !is_nat_digit.
  cbn [mbind option_bind]. f_equal.
  assert (n / 100 = n / 10 / 10) as -> by (by rewrite Nat.Div0.div_div).
  assert (n / 1000 = n / 10 / 10 / 10) as -> by (by rewrite !Nat.Div0.div_div).
  by_ten n. by_ten (n / 10). by_ten (n / 10 / 10). by_ten (n / 10 / 10 / 10).
  lia.
Qed.

Lemma days_in_month_le y m : days_in_month y m ≤ 31.
Proof.
  unfold days_in_month.
  do 13 (destruct m as [|m]; [try destruct (is_leap y); lia|]). lia.
Qed.

Lemma valid_date_bounds d :
  valid_date d = true →
  1 ≤ year d ≤ MAXYEAR ∧ 1 ≤ month d ≤ 12 ∧ 1 ≤ day d ≤ 31.
Proof.
  unfold valid_date. rewrite !andb_true_iff, !Nat.leb_le.
  pose proof (days_in_month_le (year d) (month d)). lia.
Qed.

Lemma parse_timestamp_dashed a b c d e f g h :
  Pd.parse_timestamp
    (String a (String b (String c (String d (String "-"
      (String e (String f (String "-" (String g (String h "")))))))))) =
  y ← Pd.digits4 a b c d; m ← Pd.digits2 e f; dd ← Pd.digits2 g h;
  dt ← Pd.mk_date y m dd; Some (MkTimestamp dt 0).
Proof. reflexivity. Qed.

(** Reading the canonical text of a date gives the date back, at
    midnight. *)
Lemma parse_timestamp_isoformat d :
  valid_date d = true →
  Pd.parse_timestamp (isoformat d) = Some (MkTimestamp d 0).
Proof.
  intros Hv. pose proof (valid_date_bounds d Hv) as (Hy & Hm & Hd).
  unfold isoformat, pad4, pad2. rewrite parse_timestamp_dashed.
  rewrite digits4_digit, !digits2_digit by lia.
  cbn [mbind option_bind]. unfold Pd.mk_date.
  destruct d as [y m dd]. cbn [year month day] in *. by rewrite Hv.
Qed.


Lemma isoformat_inj d1 d2 :
  valid_date d1 = true → valid_date d2 = true →
  isoformat d1 = isoformat d2 → d1 = d2.
Proof.
  intros H1 H2 E. apply parse_timestamp_isoformat in H1, H2.
  rewrite E in H1. congruence.
Qed.

Lemma ascii_compare_digit x y :
  Ascii.compare (digit x) (digit y) = (x mod 10 ?= y mod 10).
Proof.
  unfold Ascii.compare, digit, ascii_of_nat.
  pose proof (Nat.mod_upper_bound x 10 ltac:(lia)).
  pose proof (Nat.mod_upper_bound y 10 ltac:(lia)).
  rewrite !N_ascii_embedding by lia.
  rewrite <-Nat2N.inj_compare.
  destruct (Nat.compare_spec (x mod 10) (y mod 10));
    [apply Nat.compare_eq_iff|apply Nat.compare_lt_iff|apply Nat.compare_gt_iff];
    lia.
Qed.

Lemma compare_pad2 m n k1 k2 :
  m < 100 → n < 100 →
  String.compare (pad2 m k1) (pad2 n k2) =
  match m ?= n with Eq => String.compare k1 k2 | c => c end.
Proof.
  intros Hm Hn. unfold pad2. cbn [String.compare].
  rewrite !ascii_compare_digit.
  by_ten m. by_ten n. by_ten (m / 10). by_ten (n / 10).
  destruct (Nat.compare_spec ((m / 10) mod 10) ((n / 10) mod 10));
    destruct (Nat.compare_spec (m mod 10) (n mod 10));
    destruct (Nat.compare_spec m n); try reflexivity; lia.
Qed.

Lemma pad4_pad2 n k : pad4 n k = pad2 (n / 100) (pad2 (n mod 100) k).
Proof.
  unfold pad4, pad2.
  assert (∀ a b, a mod 10 = b mod 10 → digit a = digit b) as Hd.
  { unfold digit. by intros a b ->. }
  pose proof (Nat.div_mod_eq n 100).
  pose proof (Nat.mod_upper_bound n 100 ltac:(lia)).
  rewrite (Hd (n / 1000) (n / 100 / 10)) by (by rewrite Nat.Div0.div_div).
  rewrite (Hd (n / 10) (n mod 100 / 10)).
  2:{ by_ten n. by_ten (n / 10). by_ten (n mod 100). by_ten (n mod 100 / 10).
      lia. }
  rewrite (Hd n (n mod 100)); [done|].
  by_ten n. by_ten (n mod 100). lia.
Qed.

Lemma compare_pad4 m n k1 k2 :
  m ≤ MAXYEAR → n ≤ MAXYEAR →
  String.compare (pad4 m k1) (pad4 n k2) =
  match m ?= n with Eq => String.compare k1 k2 | c => c end.
Proof.
  unfold MAXYEAR. intros Hm Hn. rewrite !pad4_pad2.
  pose proof (Nat.div_mod_eq m 100).
  pose proof (Nat.mod_upper_bound m 100 ltac:(lia)).
  pose proof (Nat.div_mod_eq n 100).
  pose proof (Nat.mod_upper_bound n 100 ltac:(lia)).
  rewrite compare_pad2 by lia.
  rewrite compare_pad2 by lia.
  destruct (Nat.compare_spec (m / 100) (n / 100));
    destruct (Nat.compare_spec (m mod 100) (n mod 100));
    destruct (Nat.compare_spec m n); try reflexivity; lia.
Qed.

(** On canonical texts the order of strings is the order of dates. *)
Lemma str_leb_isoformat a b :
  valid_date a = true → valid_date b = true →
  Pd.str_leb (isoformat a) (isoformat b) = date_leb a b.
Proof.
  intros Ha Hb.
  pose proof (valid_date_bounds a Ha) as (? & ? & ?).
  pose proof (valid_date_bounds b Hb) as (? & ? & ?).
  unfold Pd.str_leb, String.leb, isoformat, date_leb.
  rewrite compare_pad4 by lia. cbn [String.compare].
  change (Ascii.compare "-" "-") with Eq. cbv iota.
  rewrite compare_pad2 by lia. cbn [String.compare].
  change (Ascii.compare "-" "-") with Eq. cbv iota.
  rewrite compare_pad2 by lia. cbn [String.compare].
  destruct (Nat.compare_spec (year a) (year b));
    destruct (Nat.compare_spec (month a) (month b));
    destruct (Nat.compare_spec (day a) (day b));
    repeat match goal with
    | |- context [?x <? ?y] => destruct (Nat.ltb_spec x y)
    | |- context [?x =? ?y] => destruct (Nat.eqb_spec x y)
    | |- context [?x <=? ?y] => destruct (Nat.leb_spec x y)
    end; cbn; try reflexivity; lia.
Qed.

(** The text [NaT] is above every date text. *)
Lemma str_leb_NaT_isoformat d : Pd.str_leb "NaT" (isoformat d) = false.
Proof.
  unfold Pd.str_leb, String.leb, isoformat, pad4. cbn [String.compare].
  change "N"%char with (ascii_of_nat 78).
  unfold Ascii.compare, digit, ascii_of_nat.
  pose proof (Nat.mod_upper_bound (year d / 1000) 10 ltac:(lia)).
  rewrite !N_ascii_embedding by lia.
  destruct (N.compare_spec (N.of_nat 78)
              (N.of_nat (48 + (year d / 1000) mod 10))); [lia| lia |done].
Qed.


Lemma isoformat_not_NaT d : isoformat d ≠ "NaT".
Proof.
  intros E. pose proof (str_leb_NaT_isoformat d) as H.
  rewrite E in H. by vm_compute in H.
Qed.

(* ===================================================================== *)
(** ** The merge of the updater *)
(* ===================================================================== *)

Section merge_facts.
Import PowerballUpdater.

Local Abbreviation same_text k :=
  (λ r : gmap string string, draw_date_key r = k).

Lemma merge_perm_drop existing new :
  merge existing new ≡ₚ Pd.drop_duplicates_last draw_date_key (existing ++ new).
Proof. apply sort_values_perm. Qed.

Lemma merge_elem_of existing new r :
  r ∈ merge existing new → r ∈ existing ++ new.
Proof.
  rewrite merge_perm_drop. apply drop_duplicates_last_elem_of.
Qed.

Lemma merge_NoDup existing new :
  NoDup (draw_date_key <$> merge existing new).
Proof.
  rewrite merge_perm_drop. apply drop_duplicates_last_NoDup.
Qed.

Lemma merge_class existing new k :
  filter (same_text k) (merge existing new) =
  option_list (last (filter (same_text k) (existing ++ new))).
Proof.
  unfold merge.
  rewrite (sort_values_stable Pd.str_leb draw_date_key
             str_leb_total str_leb_trans).
  apply drop_duplicates_last_class.
Qed.

(** The merged table is the only arrangement of the de-duplicated rows in
    ascending order of their texts. *)
Lemma merge_order_forced existing new out :
  out ≡ₚ Pd.drop_duplicates_last draw_date_key (existing ++ new) →
  StronglySorted (Pd.na_last (Pd.direction Pd.str_leb true) draw_date_key) out →
  out = merge existing new.
Proof.
  intros Hperm Hs.
  apply (sort_values_forced Pd.str_leb draw_date_key
           str_leb_total str_leb_trans true); [|..|done|done].
  - apply str_leb_antisym.
  - apply drop_duplicates_last_NoDup.
Qed.

Lemma canonical_date_isoformat (r : gmap string string) d :
  valid_date d = true → draw_date_key r = Some (isoformat d) →
  canonical_date (parser := Pd.reader) r = Some d.
Proof.
  intros Hv Hr. unfold canonical_date, Pd.to_datetime_cell. rewrite Hr.
  change (Pd.dt_date (Pd.parse_timestamp (isoformat d)) = Some d).
  by rewrite parse_timestamp_isoformat.
Qed.

End merge_facts.

(** C1 (as amended).  The merge of lines 108 and 109 works on the stored
    text of ["Draw Date"]: for every text (and for the missing text) the one
    row kept is the last row of [existing ++ new] with that text, so a
    fetched row replaces an existing row with the same text and no text
    occurs twice; the result is in ascending order of the text, missing
    last.  When every stored text is the canonical text of a date, this is
    one row per canonical date, in ascending order of the dates. *)
Theorem merge_keeps_last_per_text_sorted
    (existing new : list (gmap string string)) :
  let key := PowerballUpdater.draw_date_key in
  let date := PowerballUpdater.canonical_date (parser := Pd.reader) in
  let out := PowerballUpdater.merge existing new in
  (∀ k, filter (λ r, key r = k) out =
        option_list (last (filter (λ r, key r = k) (existing ++ new)))) ∧
  (∀ k r, last (filter (λ r, key r = k) new) = Some r →
          filter (λ r, key r = k) out = [r]) ∧
  NoDup (key <$> out) ∧
  StronglySorted (Pd.na_last (Pd.direction Pd.str_leb true) key) out ∧
  (Forall (λ r, ∃ d, valid_date d = true ∧ key r = Some (isoformat d))
          (existing ++ new) →
   NoDup (date <$> out) ∧
   StronglySorted (Pd.na_last (λ a b, date_leb a b = true) date) out).
Proof.
  cbv zeta.
  pose proof (sort_values_sorted Pd.str_leb PowerballUpdater.draw_date_key
                str_leb_total str_leb_trans true
                (Pd.drop_duplicates_last PowerballUpdater.draw_date_key
                   (existing ++ new))) as Hsorted.
  fold (PowerballUpdater.merge existing new) in Hsorted.
  split_and!.
  - intros k. apply merge_class.
  - intros k r Hr. by rewrite merge_class, filter_app, last_app, Hr.
  - apply merge_NoDup.
  - exact Hsorted.
  - intros Hall.
    set (out := PowerballUpdater.merge existing new) in *.
    set (key := PowerballUpdater.draw_date_key) in *.
    set (date := PowerballUpdater.canonical_date) in *.
    assert (∀ r, r ∈ out → ∃ d, valid_date d = true ∧
              key r = Some (isoformat d) ∧ date r = Some d) as Hout.
    { intros r Hr%merge_elem_of.
      destruct (proj1 (Forall_forall _ _) Hall r Hr) as (d & Hv & Hk).
      exists d. split_and!; [done..|]. by apply canonical_date_isoformat. }
    split.
    + apply NoDup_fmap_2_strong.
      * intros r1 r2 H1 H2 E.
        destruct (Hout r1 H1) as (d1 & _ & Hk1 & Hd1).
        destruct (Hout r2 H2) as (d2 & _ & Hk2 & Hd2).
        apply (NoDup_fmap_eq key out); [apply merge_NoDup|done..|].
        rewrite Hk1, Hk2. congruence.
      * eapply NoDup_fmap_1, merge_NoDup.
    + eapply StronglySorted_impl_elem; [|exact Hsorted].
      intros r1 r2 H1 H2.
      destruct (Hout r1 H1) as (d1 & Hv1 & Hk1 & Hd1).
      destruct (Hout r2 H2) as (d2 & Hv2 & Hk2 & Hd2).
      unfold Pd.na_last, Pd.direction.
      rewrite Hk1, Hk2, Hd1, Hd2. by rewrite str_leb_isoformat.
Qed.

Lemma merge_keeps_last_per_text_sorted_witness :
  NoDup (PowerballUpdater.canonical_date (parser := Pd.reader) <$>
         PowerballUpdater.merge
           [draw "2024-01-01" "1 2 3 4 5 6" "2";
            draw "2024-01-03" "7 8 9 10 11 12" "3"]
           [draw "2024-01-03" "7 8 9 10 11 13" "4";
            draw "2024-01-06" "14 15 16 17 18 19" "2"]).
Proof.
  apply (merge_keeps_last_per_text_sorted
           [draw "2024-01-01" "1 2 3 4 5 6" "2";
            draw "2024-01-03" "7 8 9 10 11 12" "3"]
           [draw "2024-01-03" "7 8 9 10 11 13" "4";
            draw "2024-01-06" "14 15 16 17 18 19" "2"]).
  repeat constructor.
  - by exists (Date 2024 1 1).
  - by exists (Date 2024 1 3).
  - by exists (Date 2024 1 3).
  - by exists (Date 2024 1 6).
Defined.

(** C1 (as stated) fails: an existing row stored as [01/06/2024] and a
    fetched row [2024-01-06] are the same canonical date, and both are kept;
    the result is in the order of the texts, not of the dates. *)
Lemma merge_not_by_canonical_date :
  let existing := [draw "12/30/2023" "1 2 3 4 5 6" "2";
                   draw "01/06/2024" "7 8 9 10 11 12" "3"] in
  let new := [draw "2024-01-06" "7 8 9 10 11 13" "4"] in
  cells <$> PowerballUpdater.merge existing new =
    [(Some "01/06/2024", Some "7 8 9 10 11 12", Some "3");
     (Some "12/30/2023", Some "1 2 3 4 5 6", Some "2");
     (Some "2024-01-06", Some "7 8 9 10 11 13", Some "4")] ∧
  PowerballUpdater.canonical_date (parser := Pd.reader) <$>
    PowerballUpdater.merge existing new =
    [Some (Date 2024 1 6); Some (Date 2023 12 30); Some (Date 2024 1 6)] ∧
  ¬ NoDup (PowerballUpdater.canonical_date (parser := Pd.reader) <$>
           PowerballUpdater.merge existing new).
Proof.
  cbv zeta. split_and!.
  - vm_compute. reflexivity.
  - vm_compute. reflexivity.
  - assert (PowerballUpdater.canonical_date (parser := Pd.reader) <$>
            PowerballUpdater.merge
              [draw "12/30/2023" "1 2 3 4 5 6" "2";
               draw "01/06/2024" "7 8 9 10 11 12" "3"]
              [draw "2024-01-06" "7 8 9 10 11 13" "4"] =
            [Some (Date 2024 1 6); Some (Date 2023 12 30);
             Some (Date 2024 1 6)]) as -> by (vm_compute; reflexivity).
    rewrite NoDup_cons. intros [H _]. apply H. set_solver.
Qed.

(* ===================================================================== *)
(** ** Identifying the date column *)
(* ===================================================================== *)

Lemma chr_lower_upper c : Py.chr_lower (Py.chr_upper c) = Py.chr_lower c.
Proof. by destruct c as [[] [] [] [] [] [] [] []]. Qed.

Lemma chr_lower_lower c : Py.chr_lower (Py.chr_lower c) = Py.chr_lower c.
Proof. by destruct c as [[] [] [] [] [] [] [] []]. Qed.

Lemma lower_upper s : Py.lower (Py.upper s) = Py.lower s.
Proof. induction s as [|c s IH]; cbn; [done|]. by rewrite chr_lower_upper, IH. Qed.

Lemma lower_lower s : Py.lower (Py.lower s) = Py.lower s.
Proof. induction s as [|c s IH]; cbn; [done|]. by rewrite chr_lower_lower, IH. Qed.

Lemma app_cons c s1 s2 : String c s1 +:+ s2 = String c (s1 +:+ s2).
Proof. done. Qed.

Lemma lower_app s1 s2 : Py.lower (s1 +:+ s2) = Py.lower s1 +:+ Py.lower s2.
Proof.
  induction s1 as [|c s1 IH]; [done|].
  rewrite app_cons. cbn [Py.lower]. by rewrite IH.
Qed.

Lemma re_sub_class_app cls s1 s2 :
  Py.re_sub_class cls (s1 +:+ s2) =
  Py.re_sub_class cls s1 +:+ Py.re_sub_class cls s2.
Proof.
  induction s1 as [|c s1 IH]; [done|].
  rewrite app_cons. cbn [Py.re_sub_class].
  destruct (cls c); by rewrite IH.
Qed.

Lemma norm_app s1 s2 :
  SortPowerball.norm (s1 +:+ s2) = SortPowerball.norm s1 +:+ SortPowerball.norm s2.
Proof. unfold SortPowerball.norm. by rewrite lower_app, re_sub_class_app. Qed.

(** A character that is neither a letter nor a digit leaves no trace in the
    normal form. *)
Lemma norm_punctuation c :
  Py.is_upper c = false → Py.is_lower c = false → Py.is_digit c = false →
  SortPowerball.norm (String c "") = "".
Proof.
  intros Hu Hl Hd. unfold SortPowerball.norm. cbn.
  unfold Py.chr_lower, Py.not_lower_alnum. by rewrite Hu, Hl, Hd.
Qed.

Lemma norm_upper s : SortPowerball.norm (Py.upper s) = SortPowerball.norm s.
Proof. unfold SortPowerball.norm. by rewrite lower_upper. Qed.

Lemma norm_lower s : SortPowerball.norm (Py.lower s) = SortPowerball.norm s.
Proof. unfold SortPowerball.norm. by rewrite lower_lower. Qed.

Lemma norm_insert s1 c s2 :
  Py.is_upper c = false → Py.is_lower c = false → Py.is_digit c = false →
  SortPowerball.norm (s1 +:+ String c s2) = SortPowerball.norm (s1 +:+ s2).
Proof.
  intros Hu Hl Hd.
  change (String c s2) with (String c "" +:+ s2).
  by rewrite !norm_app, norm_punctuation.
Qed.

Section identify.
Context {parser : Pd.Parser}.
Import SortPowerball.

Local Abbreviation candidate := (λ c : string, norm c ∈ DATE_CANDIDATES).

Lemma name_match_Some cols c :
  name_match cols = Some c ↔
  ∃ i, cols !! i = Some c ∧ candidate c ∧
       ∀ j c', cols !! j = Some c' → j < i → ¬ candidate c'.
Proof.
  unfold name_match. split.
  - intros ([i c'] & Hf & ->)%fmap_Some. exists i.
    by apply list_find_Some in Hf.
  - intros (i & Hi). apply fmap_Some. exists (i, c).
    split; [|done]. by apply list_find_Some.
Qed.

Lemma name_match_None cols :
  name_match cols = None ↔ Forall (λ c, ¬ candidate c) cols.
Proof. unfold name_match. rewrite fmap_None. apply list_find_None. Qed.

Lemma name_match_skip pre h post :
  Forall (λ c, ¬ candidate c) pre → candidate h →
  name_match (pre ++ h :: post) = Some h.
Proof.
  intros Hpre Hh. apply name_match_Some. exists (length pre). split_and!.
  - by rewrite list_lookup_middle.
  - done.
  - intros j c' Hj Hlt. rewrite lookup_app_l in Hj by done.
    apply list_elem_of_lookup_2 in Hj.
    exact (proj1 (Forall_forall _ _) Hpre c' Hj).
Qed.

(** The position found depends on the headers through their normal forms
    only. *)
Lemma name_match_position cols1 cols2 :
  norm <$> cols1 = norm <$> cols2 →
  fst <$> list_find candidate cols1 = fst <$> list_find candidate cols2.
Proof.
  intros E.
  assert (∀ cols, fst <$> list_find candidate cols =
                  fst <$> list_find (λ n, n ∈ DATE_CANDIDATES) (norm <$> cols))
    as Hn.
  { intros cols. rewrite list_find_fmap.
    by destruct (list_find _ cols) as [[i c]|]. }
  by rewrite !Hn, E.
Qed.

Lemma pick_Some cols opts n :
  PowerballUpdater.pick cols opts = Some n ↔
  ∃ i, opts !! i = Some n ∧ n ∈ cols ∧
       ∀ j m, opts !! j = Some m → j < i → m ∉ cols.
Proof.
  unfold PowerballUpdater.pick. split.
  - intros ([i c'] & Hf & ->)%fmap_Some. exists i.
    by apply list_find_Some in Hf.
  - intros (i & Hi). apply fmap_Some. exists (i, n).
    split; [|done]. by apply list_find_Some.
Qed.

End identify.

Lemma three_spellings_are_candidates h :
  h ∈ ["Draw Date"; "draw_date"; "DRAW-DATE"] →
  SortPowerball.norm h = "drawdate" ∧
  SortPowerball.norm h ∈ SortPowerball.DATE_CANDIDATES.
Proof.
  rewrite !elem_of_cons, elem_of_nil.
  intros [->|[->|[->|[]]]]; (split; [done|]);
    apply (bool_decide_unpack _); by vm_compute.
Qed.

(** C2 (as amended).  The sorter's [guess_date_col] returns the first header,
    in column order, whose normal form (lower case, everything but letters
    and digits removed) is a date candidate; the normal form, and with it
    the position found, does not change with upper or lower case or with
    inserted punctuation, and the headers [Draw Date], [draw_date] and
    [DRAW-DATE] are found alike.  The updater's [pick] does not normalise:
    it returns the first of its name options that is literally a header. *)
Theorem date_column_by_normalised_name {parser : Pd.Parser} :
  (∀ df c, SortPowerball.name_match (Pd.columns df) = Some c →
           SortPowerball.guess_date_col df = Some c) ∧
  (∀ cols c,
     SortPowerball.name_match cols = Some c ↔
     ∃ i, cols !! i = Some c ∧
          SortPowerball.norm c ∈ SortPowerball.DATE_CANDIDATES ∧
          ∀ j c', cols !! j = Some c' → j < i →
                  SortPowerball.norm c' ∉ SortPowerball.DATE_CANDIDATES) ∧
  (∀ s, SortPowerball.norm (Py.upper s) = SortPowerball.norm s ∧
        SortPowerball.norm (Py.lower s) = SortPowerball.norm s) ∧
  (∀ s1 c s2,
     Py.is_upper c = false → Py.is_lower c = false → Py.is_digit c = false →
     SortPowerball.norm (s1 +:+ String c s2) = SortPowerball.norm (s1 +:+ s2)) ∧
  (∀ cols1 cols2,
     SortPowerball.norm <$> cols1 = SortPowerball.norm <$> cols2 →
     fst <$> list_find
               (λ c, SortPowerball.norm c ∈ SortPowerball.DATE_CANDIDATES) cols1 =
     fst <$> list_find
               (λ c, SortPowerball.norm c ∈ SortPowerball.DATE_CANDIDATES) cols2) ∧
  (∀ pre h post,
     h ∈ ["Draw Date"; "draw_date"; "DRAW-DATE"] →
     Forall (λ c, SortPowerball.norm c ∉ SortPowerball.DATE_CANDIDATES) pre →
     SortPowerball.name_match (pre ++ h :: post) = Some h) ∧
  (∀ cols opts n,
     PowerballUpdater.pick cols opts = Some n ↔
     ∃ i, opts !! i = Some n ∧ n ∈ cols ∧
          ∀ j m, opts !! j = Some m → j < i → m ∉ cols).
Proof.
  split_and!.
  - intros df c Hc. unfold SortPowerball.guess_date_col. by rewrite Hc.
  - apply name_match_Some.
  - intros s. split; [apply norm_upper|apply norm_lower].
  - apply norm_insert.
  - apply name_match_position.
  - intros pre h post Hh Hpre. apply name_match_skip; [done|].
    by apply three_spellings_are_candidates.
  - apply pick_Some.
Qed.

Lemma date_column_by_normalised_name_witness :
  SortPowerball.name_match ["Id"; "DRAW-DATE"; "Winning Numbers"]
  = Some "DRAW-DATE".
Proof.
  apply (proj1 (proj2 (proj2 (proj2 (proj2 (proj2
           (date_column_by_normalised_name (parser := Pd.reader)))))))
         ["Id"] "DRAW-DATE" ["Winning Numbers"]).
  - set_solver.
  - repeat constructor. intros H.
    by apply (bool_decide_pack _) in H; vm_compute in H.
Defined.

(** C2 (as stated) fails in the updater: [pick] finds [Draw Date] and
    [draw_date] but not [DRAW-DATE], and a file with that header ends the
    run with exit code 3, where the same file under [Draw Date] is
    accepted. *)
Lemma pick_misses_upper_case_header :
  PowerballUpdater.pick ["Draw Date"; "Winning Numbers"; "Multiplier"]
    PowerballUpdater.date_options = Some "Draw Date" ∧
  PowerballUpdater.pick ["draw_date"; "Winning Numbers"; "Multiplier"]
    PowerballUpdater.date_options = Some "draw_date" ∧
  PowerballUpdater.pick ["DRAW-DATE"; "Winning Numbers"; "Multiplier"]
    PowerballUpdater.date_options = None ∧
  (PowerballUpdater.main (parser := Pd.reader) (csv := Pd.plain_csv)
     (http := no_news) "powerball.csv"
     (disk "powerball.csv" upper_header_csv)).2 = Py.Exit 3 ∧
  (PowerballUpdater.main (parser := Pd.reader) (csv := Pd.plain_csv)
     (http := no_news) "powerball.csv"
     (disk "powerball.csv" plain_header_csv)).2 = Py.Exit 0.
Proof. split_and!; by vm_compute. Qed.

Section content_scan.
Context {parser : Pd.Parser} (df : Pd.DataFrame).
Import SortPowerball.

Lemma hits_nonneg c : (0 ≤ hits df c)%Z.
Proof. unfold hits. lia. Qed.

Lemma content_step_best_of seen best c :
  best_of df seen best → best_of df (seen ++ [c]) (content_step df best c).
Proof.
  pose proof (hits_nonneg c) as Hc.
  destruct best as [[b|] n]; unfold best_of, content_step; cbn.
  - intros (-> & Hb & Hall & i & Hi & Hlt).
    destruct (Z.ltb_spec (hits df b) (hits df c));
      destruct (Z.ltb_spec 0 (hits df c)); cbn.
    + split_and!; [done..| |].
      * apply Forall_app. split; [|by repeat constructor].
        eapply Forall_impl; [exact Hall|]. cbn. lia.
      * exists (length seen). split; [by rewrite list_lookup_middle|].
        intros j c' Hj Hjlt. rewrite lookup_app_l in Hj by done.
        apply list_elem_of_lookup_2 in Hj.
        pose proof (proj1 (Forall_forall _ _) Hall c' Hj). cbn in *. lia.
    + lia.
    + split_and!; [done..| |].
      * apply Forall_app. split; [done|]. repeat constructor. lia.
      * exists i. split; [by apply lookup_app_l_Some|].
        intros j c' Hj Hjlt. apply (Hlt j); [|done].
        apply lookup_lt_Some in Hi.
        by rewrite lookup_app_l in Hj by lia.
    + split_and!; [done..| |].
      * apply Forall_app. split; [done|]. repeat constructor. lia.
      * exists i. split; [by apply lookup_app_l_Some|].
        intros j c' Hj Hjlt. apply (Hlt j); [|done].
        apply lookup_lt_Some in Hi.
        by rewrite lookup_app_l in Hj by lia.
  - intros (-> & Hall).
    destruct (Z.ltb_spec (-1) (hits df c));
      destruct (Z.ltb_spec 0 (hits df c)); cbn; try lia.
    + split_and!; [done..| |].
      * apply Forall_app. split; [|by repeat constructor].
        eapply Forall_impl; [exact Hall|]. cbn. lia.
      * exists (length seen). split; [by rewrite list_lookup_middle|].
        intros j c' Hj Hjlt. rewrite lookup_app_l in Hj by done.
        apply list_elem_of_lookup_2 in Hj.
        pose proof (proj1 (Forall_forall _ _) Hall c' Hj). cbn in *. lia.
    + split; [done|]. apply Forall_app. split; [done|].
      repeat constructor. lia.
Qed.

Lemma content_scan_best_of cols seen best :
  best_of df seen best →
  best_of df (seen ++ cols) (foldl (content_step df) best cols).
Proof.
  revert seen best. induction cols as [|c cols IH]; intros seen best Hb.
  { by rewrite app_nil_r. }
  cbn [foldl]. rewrite cons_middle, (assoc_L (++) seen [c] cols).
  by apply IH, content_step_best_of.
Qed.

Lemma content_match_best_of :
  best_of df (Pd.columns df)
    (foldl (content_step df) (None, (-1)%Z) (Pd.columns df)).
Proof. apply (content_scan_best_of _ []). by split. Qed.

End content_scan.

(** C3.  When no header matches by name, [guess_date_col] is decided by the
    content: [hits] counts, per column, the cells that parse as dates; the
    column returned has a positive count that no column exceeds and that no
    earlier column reaches; and the result is [None] exactly when no column
    has a cell that parses. *)
Theorem guess_date_col_by_content {parser : Pd.Parser} (df : Pd.DataFrame) :
  Forall (λ c, SortPowerball.norm c ∉ SortPowerball.DATE_CANDIDATES)
         (Pd.columns df) →
  (∀ c, SortPowerball.hits df c =
        Z.of_nat (length (filter is_Some
                    (Pd.to_datetime_cell true <$> Pd.column df c)))) ∧
  (SortPowerball.guess_date_col df = None ↔
   Forall (λ c, SortPowerball.hits df c = 0%Z) (Pd.columns df)) ∧
  (∀ b, SortPowerball.guess_date_col df = Some b →
     (0 < SortPowerball.hits df b)%Z ∧
     Forall (λ c, (SortPowerball.hits df c ≤ SortPowerball.hits df b)%Z)
            (Pd.columns df) ∧
     ∃ i, Pd.columns df !! i = Some b ∧
          ∀ j c, Pd.columns df !! j = Some c → j < i →
                 (SortPowerball.hits df c < SortPowerball.hits df b)%Z).
Proof.
  intros Hname%name_match_None.
  unfold SortPowerball.guess_date_col. rewrite Hname.
  unfold SortPowerball.content_match.
  pose proof (content_match_best_of df) as Hbest.
  unfold SortPowerball.best_of in Hbest.
  destruct (foldl _ _ _) as [[b|] n]; cbn in *.
  - destruct Hbest as (-> & Hpos & Hall & i & Hi & Hlt). split_and!.
    + done.
    + split; [done|]. intros Hzero.
      apply list_elem_of_lookup_2 in Hi.
      pose proof (proj1 (Forall_forall _ _) Hzero b Hi). cbn in *. lia.
    + intros b' [= <-]. split_and!; [done..|]. by exists i.
  - destruct Hbest as (-> & Hall). split_and!; [done| |done].
    by split.
Qed.

Lemma guess_date_col_by_content_witness :
  SortPowerball.guess_date_col (parser := Pd.reader) untitled_dates
  = Some "When" ∧
  SortPowerball.hits (parser := Pd.reader) untitled_dates "When" = 2%Z ∧
  SortPowerball.hits (parser := Pd.reader) untitled_dates "Also" = 2%Z ∧
  ∃ i, Pd.columns untitled_dates !! i = Some "When" ∧
       ∀ j c, Pd.columns untitled_dates !! j = Some c → j < i →
         (SortPowerball.hits (parser := Pd.reader) untitled_dates c <
          SortPowerball.hits (parser := Pd.reader) untitled_dates "When")%Z.
Proof.
  split_and!; [by vm_compute..|].
  apply (guess_date_col_by_content (parser := Pd.reader) untitled_dates).
  - repeat (apply Forall_cons; split; [|]); [..|constructor];
      intros H; by apply (bool_decide_pack _) in H; vm_compute in H.
  - by vm_compute.
Defined.

(* ===================================================================== *)
(** ** Date normalisation *)
(* ===================================================================== *)






Lemma mk_date_valid y m d dt :
  Pd.mk_date y m d = Some dt → valid_date dt = true.
Proof.
  unfold Pd.mk_date. destruct (valid_date (Date y m d)) eqn:E; [|done].
  by intros [= <-].
Qed.

(** The reader gives valid days only. *)
Lemma parse_timestamp_valid s ts :
  Pd.parse_timestamp s = Some ts → valid_date (ts_date ts) = true.
Proof.
  unfold Pd.parse_timestamp.
  do 10 (destruct s as [|? s]; [done|]).
  intros H.
  destruct (_ && _); [|destruct (_ && _); [|done]];
    repeat match type of H with
    | context [Pd.digits4 ?a ?b ?c ?d] => destruct (Pd.digits4 a b c d); [|done]
    | context [Pd.digits2 ?a ?b] => destruct (Pd.digits2 a b); [|done]
    end; cbn [mbind option_bind] in H;
    match type of H with
    | context [Pd.mk_date ?y ?m ?d] =>
        destruct (Pd.mk_date y m d) as [dt|] eqn:E; [|done]
    end; apply mk_date_valid in E; cbn [mbind option_bind] in H.
  - destruct s as [|sep t]; [by injection H as <-|].
    destruct (_ || _); [|done].
    destruct (Pd.parse_time t); [|done]. by injection H as <-.
  - by injection H as <-.
Qed.

Lemma isoformat_length d : String.length (isoformat d) = 10.
Proof. done. Qed.



(* ===================================================================== *)
(** ** The sorter *)
(* ===================================================================== *)

Section sorter_facts.
Context {parser : Pd.Parser}.
Import SortPowerball.

Lemma normalize_date_NaT c :
  Pd.to_datetime_cell true c = None → normalize_date c = "NaT".
Proof. unfold normalize_date. by intros ->. Qed.

Lemma normalize_date_Some c ts :
  Pd.to_datetime_cell true c = Some ts →
  normalize_date c = isoformat (ts_date ts).
Proof. unfold normalize_date. by intros ->. Qed.

Lemma normalize_date_NaT_iff c :
  normalize_date c = "NaT" ↔ Pd.to_datetime_cell true c = None.
Proof.
  split; [|apply normalize_date_NaT].
  destruct (Pd.to_datetime_cell true c) as [ts|] eqn:E; [|done].
  rewrite (normalize_date_Some c ts E). by intros ?%isoformat_not_NaT.
Qed.

Lemma cleaned_elem_of col df r' :
  r' ∈ Pd.rows (cleaned col df) ↔
  ∃ r, r ∈ Pd.rows df ∧ r' = <[col := normalize_date (r !! col)]> r.
Proof.
  unfold cleaned, Pd.assign. cbn [Pd.rows]. rewrite list_elem_of_fmap.
  split; intros (r & H1 & H2); eauto.
Qed.

Lemma sorted_frame_perm col df :
  Pd.rows (sorted_frame col df) ≡ₚ Pd.rows (cleaned col df).
Proof. apply sort_values_perm. Qed.

Lemma sorted_frame_elem_of col df r' :
  r' ∈ Pd.rows (sorted_frame col df) ↔
  ∃ r, r ∈ Pd.rows df ∧ r' = <[col := normalize_date (r !! col)]> r.
Proof. by rewrite sorted_frame_perm, cleaned_elem_of. Qed.


Lemma date_key_insert col v (r : gmap string string) :
  date_key col (<[col := v]> r) = Some v.
Proof. unfold date_key. apply lookup_insert_eq. Qed.


Context {csv : Pd.Csv}.


Lemma sort_file_not_found csv_path w :
  files w !! csv_path = None →
  sort_file csv_path w = (print (SkipNotFound csv_path) w, Py.Returned).
Proof. intros Hf. unfold sort_file. by rewrite Hf. Qed.

Lemma sort_file_no_column csv_path w bytes df :
  files w !! csv_path = Some bytes →
  Pd.read_csv true bytes = Some df →
  guess_date_col df = None →
  sort_file csv_path w =
    (print (SkipNoDateColumn csv_path (Pd.columns df)) w, Py.Returned).
Proof. intros Hf Hr Hg. unfold sort_file. by rewrite Hf, Hr, Hg. Qed.

End sorter_facts.







Section sorter_loop.
Context {parser : Pd.Parser} {csv : Pd.Csv}.
Import SortPowerball.

Lemma sort_file_skips csv_path w :
  skips (files w) csv_path →
  ∃ m, sort_file csv_path w = (print m w, Py.Returned) ∧
       (m = SkipNotFound csv_path ∨
        ∃ headers, m = SkipNoDateColumn csv_path headers).
Proof.
  intros [Hf|(bytes & df & Hf & Hr & Hg)].
  - exists (SkipNotFound csv_path). split; [|by left].
    by apply sort_file_not_found.
  - exists (SkipNoDateColumn csv_path (Pd.columns df)). split; [|eauto].
    by apply (sort_file_no_column csv_path w bytes df).
Qed.

Lemma main_cons f fs w w' :
  sort_file f w = (w', Py.Returned) → main (f :: fs) w = main fs w'.
Proof. intros H. cbn [main]. by rewrite H. Qed.

(** A run over files that are all skipped prints one line per file and
    leaves the disk as it was. *)
Lemma main_all_skipped fs w :
  Forall (skips (files w)) fs →
  ∃ lines, main fs w = ({| files := files w; stdout := stdout w ++ lines |},
                        Py.Returned) ∧
           length lines = length fs.
Proof.
  revert w. induction fs as [|f fs IH]; intros w Hall.
  { exists []. rewrite app_nil_r. by destruct w. }
  apply Forall_cons in Hall as [Hf Hfs].
  destruct (sort_file_skips f w Hf) as (m & Hm & _).
  rewrite (main_cons f fs w _ Hm).
  destruct (IH (print m w) Hfs) as (lines & -> & Hlen).
  exists (m :: lines). cbn. rewrite <-(assoc_L (++)). split; [done|].
  by rewrite Hlen.
Qed.

Lemma run_exit_code argv w :
  (run argv w).2 = match (main (FILES argv) w).2 with
                   | Py.Returned => Py.Exit 0
                   | Py.Raised => Py.Exit 1
                   end.
Proof. unfold run. by destruct (main _ _) as [w' []]. Qed.

End sorter_loop.

(** C7 (as amended).  A missing file and a file without a date-like column
    are skipped: one line is printed, the disk is not touched, and the loop
    goes on with the remaining files; a run in which every file is skipped
    leaves every file as it was.  The exit code is 0 whenever the loop
    completes, whatever happened to the files, and 1 when an exception
    escapes; it does not tell a skip from a rewrite. *)
Theorem sorter_skips_and_exits_zero {parser : Pd.Parser} {csv : Pd.Csv} :
  (∀ csv_path w,
     SortPowerball.files w !! csv_path = None →
     SortPowerball.sort_file csv_path w =
       (SortPowerball.print (SortPowerball.SkipNotFound csv_path) w,
        Py.Returned)) ∧
  (∀ csv_path w bytes df,
     SortPowerball.files w !! csv_path = Some bytes →
     Pd.read_csv true bytes = Some df →
     SortPowerball.guess_date_col df = None →
     SortPowerball.sort_file csv_path w =
       (SortPowerball.print
          (SortPowerball.SkipNoDateColumn csv_path (Pd.columns df)) w,
        Py.Returned)) ∧
  (∀ m w, SortPowerball.files (SortPowerball.print m w) = SortPowerball.files w) ∧
  (∀ f fs w,
     SortPowerball.skips (SortPowerball.files w) f →
     ∃ m, SortPowerball.main (f :: fs) w =
          SortPowerball.main fs (SortPowerball.print m w)) ∧
  (∀ argv w,
     Forall (SortPowerball.skips (SortPowerball.files w))
            (SortPowerball.FILES argv) →
     SortPowerball.files (SortPowerball.run argv w).1 = SortPowerball.files w ∧
     length (SortPowerball.stdout (SortPowerball.run argv w).1) =
       length (SortPowerball.stdout w) + length (SortPowerball.FILES argv) ∧
     (SortPowerball.run argv w).2 = Py.Exit 0) ∧
  (∀ argv w,
     (SortPowerball.run argv w).2 =
       match (SortPowerball.main (SortPowerball.FILES argv) w).2 with
       | Py.Returned => Py.Exit 0
       | Py.Raised => Py.Exit 1
       end).
Proof.
  split_and!.
  - apply @sort_file_not_found.
  - apply @sort_file_no_column.
  - done.
  - intros f fs w Hf. destruct (sort_file_skips f w Hf) as (m & Hm & _).
    exists m. by apply main_cons.
  - intros argv w Hall.
    destruct (main_all_skipped _ w Hall) as (lines & Hmain & Hlen).
    unfold SortPowerball.run. rewrite Hmain. cbn.
    rewrite length_app, Hlen. done.
  - apply @run_exit_code.
Qed.

Lemma sorter_skips_and_exits_zero_witness :
  SortPowerball.files
    (SortPowerball.run (parser := Pd.reader) (csv := Pd.plain_csv)
       ["missing.csv"; "notes.csv"]
       (sorter_disk "notes.csv" ("Game,Note" +:+ LF +:+ "pb,soon" +:+ LF))).1
  = {[ "notes.csv" := "Game,Note" +:+ LF +:+ "pb,soon" +:+ LF ]} ∧
  (SortPowerball.run (parser := Pd.reader) (csv := Pd.plain_csv)
     ["missing.csv"; "notes.csv"]
     (sorter_disk "notes.csv" ("Game,Note" +:+ LF +:+ "pb,soon" +:+ LF))).2
  = Py.Exit 0.
Proof.
  assert (Forall
            (SortPowerball.skips (parser := Pd.reader) (csv := Pd.plain_csv)
               {[ "notes.csv" := "Game,Note" +:+ LF +:+ "pb,soon" +:+ LF ]})
            ["missing.csv"; "notes.csv"]) as Hall.
  { apply Forall_cons. split; [by left|].
    apply Forall_cons. split; [|constructor].
    right. eexists _, _. split_and!; by vm_compute. }
  destruct (proj1 (proj2 (proj2 (proj2 (proj2
              (sorter_skips_and_exits_zero (parser := Pd.reader)
                 (csv := Pd.plain_csv))))))
            ["missing.csv"; "notes.csv"]
            (sorter_disk "notes.csv" ("Game,Note" +:+ LF +:+ "pb,soon" +:+ LF))
            Hall)
    as (H1 & _ & H3).
  by split.
Defined.

(** C7 (as stated) fails in its last part: a run whose only file is skipped
    and a run whose only file is rewritten both end with exit code 0, so the
    exit code does not reflect the outcome of the last file. *)
Lemma exit_code_does_not_reflect_outcome :
  SortPowerball.file_outcome (parser := Pd.reader) (csv := Pd.plain_csv)
    "data/powerball.csv" (sorter_disk "elsewhere.csv" with_garbage_csv)
  = SortPowerball.Skipped ∧
  SortPowerball.file_outcome (parser := Pd.reader) (csv := Pd.plain_csv)
    "data/powerball.csv" (sorter_disk "data/powerball.csv" with_garbage_csv)
  = SortPowerball.Rewritten ∧
  (SortPowerball.run (parser := Pd.reader) (csv := Pd.plain_csv)
     [] (sorter_disk "elsewhere.csv" with_garbage_csv)).2 = Py.Exit 0 ∧
  (SortPowerball.run (parser := Pd.reader) (csv := Pd.plain_csv)
     [] (sorter_disk "data/powerball.csv" with_garbage_csv)).2 = Py.Exit 0 ∧
  ¬ SortPowerball.exit_code_reflects_outcome
      (parser := Pd.reader) (csv := Pd.plain_csv).
Proof.
  split_and!; [by vm_compute..|].
  intros H.
  specialize (H "data/powerball.csv"
                (sorter_disk "elsewhere.csv" with_garbage_csv)
                (sorter_disk "data/powerball.csv" with_garbage_csv)).
  assert (SortPowerball.Skipped = SortPowerball.Rewritten) as E; [|done].
  by apply H; vm_compute.
Qed.

(* ===================================================================== *)
(** ** The updater *)
(* ===================================================================== *)

Section updater_facts.
Context {parser : Pd.Parser} {csv : Pd.Csv} {http : PowerballUpdater.Http}.
Import PowerballUpdater.

Lemma series_max_all_NaT (s : list (option Timestamp)) :
  Forall (λ v, v = None) s → Pd.series_max s = None.
Proof.
  unfold Pd.series_max. induction 1 as [|v s -> _ IH]; [done|]. exact IH.
Qed.

Lemma last_date_iso_sentinel date_col df :
  Forall (λ c, Pd.to_datetime_cell false c = None) (Pd.column df date_col) →
  last_date_iso date_col df = "2009-12-31".
Proof.
  intros Hall. unfold last_date_iso.
  rewrite series_max_all_NaT; [done|]. by apply Forall_fmap.
Qed.

Lemma main_fetches csv_path w bytes df date_col :
  files w !! csv_path = Some bytes →
  Pd.read_csv false bytes = Some df →
  pick (Pd.columns df) date_options = Some date_col →
  requests (main csv_path w).1 =
    requests w ++ [query (last_date_iso date_col df)] ∧
  LastDate (last_date_iso date_col df) ∈ stdout (main csv_path w).1 ∧
  (main csv_path w).2 =
    match requests_get (query (last_date_iso date_col df)) with
    | None => Py.Exit 1
    | Some _ => Py.Exit 0
    end.
Proof.
  intros Hf Hr Hp. unfold main. rewrite Hf, Hr, Hp. unfold fetch_since.
  destruct (requests_get _) as [[|row data]|];
    [|destruct (Pd.sort_values _ _ _ _)|]; cbn;
    (split_and!; [done| |done]);
    rewrite ?elem_of_app, !list_elem_of_singleton; auto.
Qed.

End updater_facts.

(** C6.  The updater ends with exit code 2 when the CSV file does not exist
    and with exit code 3 when [pick] finds no date column in it; in both
    cases only a line on stderr is added: no file is written and no request
    is sent. *)
Theorem updater_exits_2_and_3
    {parser : Pd.Parser} {csv : Pd.Csv} {http : PowerballUpdater.Http}
    (csv_path : string) (w : PowerballUpdater.world) :
  (PowerballUpdater.files w !! csv_path = None →
   PowerballUpdater.main csv_path w =
     (PowerballUpdater.eprint (PowerballUpdater.ErrCsvNotFound csv_path) w,
      Py.Exit 2)) ∧
  (∀ bytes df,
     PowerballUpdater.files w !! csv_path = Some bytes →
     Pd.read_csv false bytes = Some df →
     PowerballUpdater.pick (Pd.columns df) PowerballUpdater.date_options = None →
     PowerballUpdater.main csv_path w =
       (PowerballUpdater.eprint PowerballUpdater.ErrNoDateColumn w,
        Py.Exit 3)) ∧
  (∀ m, PowerballUpdater.files (PowerballUpdater.eprint m w)
          = PowerballUpdater.files w ∧
        PowerballUpdater.requests (PowerballUpdater.eprint m w)
          = PowerballUpdater.requests w ∧
        PowerballUpdater.stdout (PowerballUpdater.eprint m w)
          = PowerballUpdater.stdout w).
Proof.
  split_and!.
  - intros Hf. unfold PowerballUpdater.main. by rewrite Hf.
  - intros bytes df Hf Hr Hp. unfold PowerballUpdater.main.
    by rewrite Hf, Hr, Hp.
  - done.
Qed.

Lemma updater_exits_2_and_3_witness :
  PowerballUpdater.main (parser := Pd.reader) (csv := Pd.plain_csv)
    (http := no_news) "powerball.csv" (disk "elsewhere.csv" undated_csv)
  = (PowerballUpdater.eprint (PowerballUpdater.ErrCsvNotFound "powerball.csv")
       (disk "elsewhere.csv" undated_csv), Py.Exit 2) ∧
  PowerballUpdater.main (parser := Pd.reader) (csv := Pd.plain_csv)
    (http := no_news) "powerball.csv" (disk "powerball.csv" no_date_header_csv)
  = (PowerballUpdater.eprint PowerballUpdater.ErrNoDateColumn
       (disk "powerball.csv" no_date_header_csv), Py.Exit 3).
Proof.
  split.
  - apply (updater_exits_2_and_3 (parser := Pd.reader) (csv := Pd.plain_csv)
             (http := no_news)). by vm_compute.
  - eapply (proj1 (proj2 (updater_exits_2_and_3 (parser := Pd.reader)
              (csv := Pd.plain_csv) (http := no_news) "powerball.csv"
              (disk "powerball.csv" no_date_header_csv)))).
    + by vm_compute.
    + by vm_compute.
    + by vm_compute.
Defined.

(** C9.  When no value of the date column parses (an empty table included),
    the updater does not stop: the since-date is the sentinel [2009-12-31],
    the request asks for the draws after that day, and the run ends with
    exit code 0 unless the request itself raises. *)
Theorem unparseable_dates_fetch_all
    {parser : Pd.Parser} {csv : Pd.Csv} {http : PowerballUpdater.Http}
    (csv_path : string) (w : PowerballUpdater.world) (bytes : string)
    (df : Pd.DataFrame) (date_col : string) :
  PowerballUpdater.files w !! csv_path = Some bytes →
  Pd.read_csv false bytes = Some df →
  PowerballUpdater.pick (Pd.columns df) PowerballUpdater.date_options
    = Some date_col →
  Forall (λ c, Pd.to_datetime_cell false c = None) (Pd.column df date_col) →
  PowerballUpdater.last_date_iso date_col df = "2009-12-31" ∧
  PowerballUpdater.requests (PowerballUpdater.main csv_path w).1 =
    PowerballUpdater.requests w ++ [PowerballUpdater.query "2009-12-31"] ∧
  PowerballUpdater.where_ (PowerballUpdater.query "2009-12-31")
    = "draw_date > '2009-12-31'" ∧
  PowerballUpdater.LastDate "2009-12-31"
    ∈ PowerballUpdater.stdout (PowerballUpdater.main csv_path w).1 ∧
  (PowerballUpdater.main csv_path w).2 =
    match PowerballUpdater.requests_get (PowerballUpdater.query "2009-12-31") with
    | None => Py.Exit 1
    | Some _ => Py.Exit 0
    end.
Proof.
  intros Hf Hr Hp Hall.
  pose proof (last_date_iso_sentinel date_col df Hall) as Hs.
  destruct (main_fetches csv_path w bytes df date_col Hf Hr Hp)
    as (Hq & Hout & Hexit).
  rewrite Hs in Hq, Hout, Hexit. by split_and!.
Qed.

Lemma unparseable_dates_fetch_all_witness :
  (PowerballUpdater.requests
     (PowerballUpdater.main (parser := Pd.reader) (csv := Pd.plain_csv)
        (http := no_news) "powerball.csv" (disk "powerball.csv" undated_csv)).1
   = [PowerballUpdater.query "2009-12-31"] ∧
   (PowerballUpdater.main (parser := Pd.reader) (csv := Pd.plain_csv)
      (http := no_news) "powerball.csv" (disk "powerball.csv" undated_csv)).2
   = Py.Exit 0) ∧
  PowerballUpdater.last_date_iso (parser := Pd.reader) "Draw Date"
    {| Pd.columns := ["Draw Date"; "Winning Numbers"; "Multiplier"];
       Pd.rows := [] |} = "2009-12-31".
Proof.
  split.
  - edestruct (unparseable_dates_fetch_all (parser := Pd.reader)
                 (csv := Pd.plain_csv) (http := no_news) "powerball.csv"
                 (disk "powerball.csv" undated_csv))
      as (_ & Hq & _ & _ & He).
    + by vm_compute.
    + by vm_compute.
    + by vm_compute.
    + by vm_compute; repeat constructor.
    + by split.
  - apply (unparseable_dates_fetch_all (parser := Pd.reader)
             (csv := Pd.plain_csv) (http := no_news) "powerball.csv"
             (disk "powerball.csv" header_only_csv) header_only_csv).
    + by vm_compute.
    + by vm_compute.
    + by vm_compute.
    + constructor.
Defined.

(* ===================================================================== *)
(** ** Further properties of the sorter *)
(* ===================================================================== *)

Lemma chr_lower_alnum c :
  Py.is_lower_alnum c = true → Py.chr_lower c = c.
Proof. by destruct c as [[] [] [] [] [] [] [] []]. Qed.

Lemma re_sub_class_all_chars s :
  Py.all_chars Py.is_lower_alnum (Py.re_sub_class Py.not_lower_alnum s) = true.
Proof.
  induction s as [|c s IH]; [done|]. cbn [Py.re_sub_class].
  unfold Py.not_lower_alnum at 1. fold (Py.is_lower_alnum c).
  destruct (Py.is_lower_alnum c) eqn:E; cbn; [|done]. by rewrite E.
Qed.

Lemma lower_alnum_fixed s :
  Py.all_chars Py.is_lower_alnum s = true →
  Py.lower s = s ∧ Py.re_sub_class Py.not_lower_alnum s = s.
Proof.
  induction s as [|c s IH]; [done|]. cbn.
  intros [Hc Hs]%andb_true_iff. destruct (IH Hs) as [-> ->].
  rewrite (chr_lower_alnum c Hc). split; [done|].
  unfold Py.not_lower_alnum. fold (Py.is_lower_alnum c). by rewrite Hc.
Qed.

Lemma re_sub_class_length cls s :
  String.length (Py.re_sub_class cls s) ≤ String.length s.
Proof.
  induction s as [|c s IH]; [done|]. cbn. destruct (cls c); cbn; lia.
Qed.

Lemma lower_length s : String.length (Py.lower s) = String.length s.
Proof. induction s as [|c s IH]; [done|]. cbn. by rewrite IH. Qed.

(** X1.  The normal form of a header is made of lower-case letters and
    digits only, is not longer than the header, and is its own normal
    form. *)
Theorem norm_alphabet_idempotent (s : string) :
  Py.all_chars Py.is_lower_alnum (SortPowerball.norm s) = true ∧
  String.length (SortPowerball.norm s) ≤ String.length s ∧
  SortPowerball.norm (SortPowerball.norm s) = SortPowerball.norm s.
Proof.
  unfold SortPowerball.norm. split_and!.
  - apply re_sub_class_all_chars.
  - rewrite <-(lower_length s). apply re_sub_class_length.
  - destruct (lower_alnum_fixed _ (re_sub_class_all_chars (Py.lower s)))
      as [-> ->]. done.
Qed.

Lemma norm_all_chars s :
  Py.all_chars Py.is_lower_alnum (SortPowerball.norm s) = true.
Proof. apply re_sub_class_all_chars. Qed.

(** X2.  Two entries of [DATE_CANDIDATES], [draw_date] and [draw_dt], hold
    an underscore, which no normal form holds: no header ever matches them,
    and a header is a date candidate exactly when its normal form is
    [drawdate], [date], [drawingdate] or [draw]. *)
Theorem underscore_candidates_unreachable (h : string) :
  SortPowerball.norm h ≠ "draw_date" ∧
  SortPowerball.norm h ≠ "draw_dt" ∧
  (SortPowerball.norm h ∈ SortPowerball.DATE_CANDIDATES ↔
   SortPowerball.norm h ∈ ["drawdate"; "date"; "drawingdate"; "draw"]).
Proof.
  pose proof (norm_all_chars h) as Hh.
  assert (SortPowerball.norm h ≠ "draw_date") as H1.
  { intros E. rewrite E in Hh. by vm_compute in Hh. }
  assert (SortPowerball.norm h ≠ "draw_dt") as H2.
  { intros E. rewrite E in Hh. by vm_compute in Hh. }
  split_and!; [done..|].
  unfold SortPowerball.DATE_CANDIDATES.
  rewrite elem_of_list_to_set, !elem_of_cons, !elem_of_nil. tauto.
Qed.

Section guess_facts.
Context {parser : Pd.Parser}.
Import SortPowerball.

Lemma content_match_elem_of df c :
  content_match df = Some c → c ∈ Pd.columns df ∧ (0 < hits df c)%Z.
Proof.
  unfold content_match. pose proof (content_match_best_of df) as Hb.
  unfold best_of in Hb. destruct (foldl _ _ _) as [[b|] n]; cbn in *; [|done].
  intros [= <-]. destruct Hb as (_ & Hpos & _ & i & Hi & _).
  split; [|done]. by apply list_elem_of_lookup_2 in Hi.
Qed.

End guess_facts.

(** X3.  The column [guess_date_col] returns is a header of the table.  A
    header with a date-like name wins over the content: when some header is
    a date candidate, the result is a candidate header, whatever the cells
    hold; a column found by its content has a cell that parses. *)
Theorem guess_date_col_is_header {parser : Pd.Parser} (df : Pd.DataFrame) :
  (∀ c, SortPowerball.guess_date_col df = Some c → c ∈ Pd.columns df) ∧
  (∀ h, h ∈ Pd.columns df →
        SortPowerball.norm h ∈ SortPowerball.DATE_CANDIDATES →
        ∃ c, SortPowerball.guess_date_col df = Some c ∧
             SortPowerball.norm c ∈ SortPowerball.DATE_CANDIDATES) ∧
  (∀ c, SortPowerball.guess_date_col df = Some c →
        SortPowerball.norm c ∉ SortPowerball.DATE_CANDIDATES →
        (0 < SortPowerball.hits df c)%Z).
Proof.
  unfold SortPowerball.guess_date_col. split_and!.
  - intros c.
    destruct (SortPowerball.name_match (Pd.columns df)) as [b|] eqn:E.
    + intros [= <-]. apply name_match_Some in E as (i & Hi & _).
      by apply list_elem_of_lookup_2 in Hi.
    + by intros [? ?]%content_match_elem_of.
  - intros h Hh Hcand.
    destruct (SortPowerball.name_match (Pd.columns df)) as [b|] eqn:E.
    + exists b. split; [done|]. by apply name_match_Some in E as (i & _ & ? & _).
    + apply name_match_None in E.
      destruct (proj1 (Forall_forall _ _) E h Hh Hcand).
  - intros c.
    destruct (SortPowerball.name_match (Pd.columns df)) as [b|] eqn:E.
    + intros [= <-] Hn. by apply name_match_Some in E as (i & _ & ? & _).
    + by intros [? ?]%content_match_elem_of.
Qed.

Lemma guess_date_col_is_header_witness :
  SortPowerball.guess_date_col (parser := Pd.reader) named_without_dates
    = Some "Date" ∧
  SortPowerball.hits (parser := Pd.reader) named_without_dates "Date" = 0%Z ∧
  SortPowerball.hits (parser := Pd.reader) named_without_dates "When" = 2%Z ∧
  "Date" ∈ Pd.columns named_without_dates.
Proof.
  split_and!; [by vm_compute..|].
  apply (proj1 (guess_date_col_is_header (parser := Pd.reader)
                  named_without_dates)).
  by vm_compute.
Defined.

Section sorted_input.
Context {A : Type} (le : A → A → bool).

Lemma merge_sorted_app l1 l2 :
  (∀ x y, x ∈ l1 → y ∈ l2 → le x y = true) →
  Pd.merge le l1 l2 = l1 ++ l2.
Proof.
  revert l2. induction l1 as [|x1 l1 IH]; intros l2 Hle.
  { by rewrite merge_nil_l. }
  destruct l2 as [|x2 l2].
  { by rewrite merge_nil_r, app_nil_r. }
  rewrite merge_cons, (Hle x1 x2) by (by left). cbn. f_equal.
  apply IH. intros x y Hx Hy. apply Hle; [by right|done].
Qed.

(** The merge sort leaves a sorted list as it is. *)
Lemma merge_sort_upto_id n l :
  StronglySorted (λ x y, le x y = true) l → Pd.merge_sort_upto le n l = l.
Proof.
  revert l. induction n as [|n IH]; intros l Hs; [done|].
  destruct l as [|x [|y l]]; [done..|].
  cbn [Pd.merge_sort_upto].
  set (k := length (x :: y :: l) / 2).
  rewrite <-(take_drop k (x :: y :: l)) in Hs.
  apply StronglySorted_app in Hs as (Hcross & H1 & H2).
  rewrite !IH by done.
  rewrite merge_sorted_app by done. apply take_drop.
Qed.

End sorted_input.

Section sort_values_sorted_input.
Context {A K : Type} (leb : K → K → bool) (key : A → option K).

Local Abbreviation keyed := (omap (λ r : A, k ← key r; Some (k, r))).

Lemma keyed_StronglySorted (ord : K → K → Prop) (l : list A) :
  StronglySorted (Pd.na_last ord key) l →
  StronglySorted (λ p q : K * A, ord p.1 q.1) (keyed l).
Proof.
  induction 1 as [|x l Hs IH Hall]; [constructor|].
  cbn [omap list_omap]. destruct (key x) as [k|] eqn:E; cbn; [|done].
  constructor; [done|]. apply Forall_forall.
  intros [k' r'] (r & Hr & Hk)%list_elem_of_omap.
  destruct (key r) as [k''|] eqn:E'; simplify_eq/=.
  pose proof (proj1 (Forall_forall _ _) Hall r' Hr) as Hrel.
  unfold Pd.na_last in Hrel. by rewrite E, E' in Hrel.
Qed.

(** Sorting rows that all have a key and are in the order asked for changes
    nothing. *)
Lemma sort_values_id ascending (l : list A) :
  Forall (λ r, is_Some (key r)) l →
  StronglySorted (Pd.na_last (Pd.direction leb ascending) key) l →
  Pd.sort_values leb key ascending l = l.
Proof.
  intros Hkeys Hs. rewrite sort_values_unfold.
  rewrite (filter_none (λ r, key r = None) l), app_nil_r.
  2:{ eapply Forall_impl; [exact Hkeys|]. intros r [k Hk]. cbn. congruence. }
  assert (snd <$> keyed l = l) as Hsnd.
  { rewrite keyed_snd. clear Hs. induction Hkeys as [|r l Hr _ IH]; [done|].
    by rewrite filter_cons_True, IH. }
  apply keyed_StronglySorted in Hs.
  unfold Pd.sorted_part, Pd.direction in *. destruct ascending.
  - unfold Pd.merge_sort. by rewrite merge_sort_upto_id.
  - unfold Pd.merge_sort. rewrite merge_sort_upto_id.
    + by rewrite reverse_involutive.
    + exact (StronglySorted_reverse _ _ Hs).
Qed.

End sort_values_sorted_input.

(** X4.  The table the sorter writes has the columns of the table it read
    and the same rows, rearranged, each with its date cell replaced by the
    normalised text and every other cell as it was: no row is lost, added or
    repeated. *)
Theorem sorted_frame_keeps_rows {parser : Pd.Parser}
    (df : Pd.DataFrame) (col : string) :
  Pd.columns (SortPowerball.sorted_frame col df) = Pd.columns df ∧
  Pd.rows (SortPowerball.sorted_frame col df) ≡ₚ
    (λ r : gmap string string,
       <[col := SortPowerball.normalize_date (r !! col)]> r) <$> Pd.rows df ∧
  length (Pd.rows (SortPowerball.sorted_frame col df)) = length (Pd.rows df) ∧
  (∀ r', r' ∈ Pd.rows (SortPowerball.sorted_frame col df) →
     ∃ r, r ∈ Pd.rows df ∧ ∀ c, c ≠ col → r' !! c = r !! c).
Proof.
  split_and!.
  - done.
  - apply sorted_frame_perm.
  - rewrite sorted_frame_perm. unfold SortPowerball.cleaned, Pd.assign.
    cbn [Pd.rows]. apply length_fmap.
  - intros r' (r & Hr & ->)%sorted_frame_elem_of. exists r.
    split; [done|]. intros c Hc. by rewrite lookup_insert_ne.
Qed.

(** X5.  The sorter puts the newest draw first: of two rows of the written
    table whose date cells are the canonical texts of two days, the earlier
    row has the later (or the same) day. *)
Theorem sorter_newest_first {parser : Pd.Parser}
    (df : Pd.DataFrame) (col : string) (i j : nat)
    (r1 r2 : gmap string string) (d1 d2 : date) :
  Pd.rows (SortPowerball.sorted_frame col df) !! i = Some r1 →
  Pd.rows (SortPowerball.sorted_frame col df) !! j = Some r2 →
  i < j →
  r1 !! col = Some (isoformat d1) → valid_date d1 = true →
  r2 !! col = Some (isoformat d2) → valid_date d2 = true →
  date_leb d2 d1 = true.
Proof.
  intros Hi Hj Hlt H1 Hv1 H2 Hv2.
  pose proof (sort_values_sorted Pd.str_leb (SortPowerball.date_key col)
                str_leb_total str_leb_trans false
                (Pd.rows (SortPowerball.cleaned col df))) as Hs.
  pose proof (StronglySorted_lookup_lt _ _ _ _ _ _ Hs Hi Hj Hlt) as Hr.
  unfold Pd.na_last, Pd.direction, SortPowerball.date_key in Hr.
  rewrite H1, H2 in Hr. by rewrite str_leb_isoformat in Hr.
Qed.

Lemma sorter_newest_first_witness :
  date_leb (Date 2024 1 3) (Date 2024 1 6) = true.
Proof.
  apply (sorter_newest_first (parser := Pd.reader) with_garbage "Draw Date"
           1 2 (draw "2024-01-06" "13 14 15 16 17 18" "4")
           (draw "2024-01-03" "1 2 3 4 5 6" "2")
           (Date 2024 1 6) (Date 2024 1 3)).
  - by vm_compute.
  - by vm_compute.
  - lia.
  - by vm_compute.
  - by vm_compute.
  - by vm_compute.
  - by vm_compute.
Defined.

Lemma reader_normalize_twice c :
  SortPowerball.normalize_date (parser := Pd.reader)
    (Some (SortPowerball.normalize_date (parser := Pd.reader) c))
  = SortPowerball.normalize_date (parser := Pd.reader) c.
Proof.
  unfold SortPowerball.normalize_date at 2 3.
  destruct (Pd.to_datetime_cell true c) as [ts|] eqn:E; [|done].
  destruct c as [s|]; [|done].
  apply parse_timestamp_valid in E.
  change (Pd.date_astype_str
            (Pd.dt_date (Pd.parse_timestamp (isoformat (ts_date ts))))
          = isoformat (ts_date ts)).
  by rewrite parse_timestamp_isoformat.
Qed.

(** X6.  Sorting twice is sorting once: when the parser reads back the texts
    the sorter writes (normalising a normalised date changes nothing), the
    table the sorter makes of its own output is that output. *)
Theorem sorted_frame_idempotent {parser : Pd.Parser}
    (df : Pd.DataFrame) (col : string) :
  (∀ c, SortPowerball.normalize_date (Some (SortPowerball.normalize_date c))
        = SortPowerball.normalize_date c) →
  SortPowerball.sorted_frame col (SortPowerball.sorted_frame col df)
  = SortPowerball.sorted_frame col df.
Proof.
  intros Hidem.
  set (out := Pd.rows (SortPowerball.sorted_frame col df)).
  cut (Pd.sort_values Pd.str_leb (SortPowerball.date_key col) false
         (Pd.rows (SortPowerball.cleaned col
                     (SortPowerball.sorted_frame col df))) = out).
  { intros E. unfold SortPowerball.sorted_frame at 1. rewrite E.
    by destruct df. }
  assert (Pd.rows (SortPowerball.cleaned col (SortPowerball.sorted_frame col df))
          = out) as ->.
  { unfold SortPowerball.cleaned, Pd.assign. cbn [Pd.rows]. fold out.
    rewrite <-(list_fmap_id out) at 2. apply list_fmap_ext.
    intros k r' Hr'. apply list_elem_of_lookup_2 in Hr'.
    apply sorted_frame_elem_of in Hr' as (r & _ & ->).
    rewrite lookup_insert_eq, Hidem. apply insert_insert_eq. }
  apply sort_values_id.
  - apply Forall_forall. intros r' (r & _ & ->)%sorted_frame_elem_of.
    unfold SortPowerball.date_key. rewrite lookup_insert_eq. by eexists.
  - apply sort_values_sorted; [apply str_leb_total|apply str_leb_trans].
Qed.

Lemma sorted_frame_idempotent_witness :
  SortPowerball.sorted_frame (parser := Pd.reader) "Draw Date"
    (SortPowerball.sorted_frame (parser := Pd.reader) "Draw Date" with_garbage)
  = SortPowerball.sorted_frame (parser := Pd.reader) "Draw Date" with_garbage.
Proof.
  apply (sorted_frame_idempotent (parser := Pd.reader)).
  apply reader_normalize_twice.
Defined.

Section sorter_frame.
Context {parser : Pd.Parser} {csv : Pd.Csv}.
Import SortPowerball.

Lemma sort_file_frame csv_path w :
  dom (files (sort_file csv_path w).1) = dom (files w) ∧
  (∀ q, q ≠ csv_path →
        files (sort_file csv_path w).1 !! q = files w !! q) ∧
  ((sort_file csv_path w).2 = Py.Returned →
   length (stdout (sort_file csv_path w).1) = S (length (stdout w))) ∧
  ((sort_file csv_path w).2 = Py.Raised → (sort_file csv_path w).1 = w).
Proof.
  unfold sort_file.
  destruct (files w !! csv_path) as [bytes|] eqn:Hf; cbn.
  2:{ split_and!; [done..| |done]. intros _. rewrite length_app. cbn. lia. }
  destruct (Pd.read_csv true bytes) as [df|]; cbn; [|done].
  assert (∀ m, length (stdout w ++ [m]) = S (length (stdout w))) as Hlen.
  { intros m. rewrite length_app. cbn. lia. }
  destruct (guess_date_col df) as [[|c col]|]; cbn; [by auto| |by auto].
  split_and!; [| |by auto|done].
  - rewrite dom_insert_L. apply elem_of_dom_2 in Hf.
    apply subseteq_union_1_L. by apply singleton_subseteq_l.
  - intros q Hq. by rewrite lookup_insert_ne.
Qed.

Lemma main_frame fs w :
  dom (files (main fs w).1) = dom (files w) ∧
  (∀ q, q ∉ fs → files (main fs w).1 !! q = files w !! q) ∧
  ((main fs w).2 = Py.Returned →
   length (stdout (main fs w).1) = length (stdout w) + length fs).
Proof.
  revert w. induction fs as [|f fs IH]; intros w.
  { cbn. split_and!; [done..|]. intros _. lia. }
  cbn [main]. destruct (sort_file_frame f w) as (Hd & Hq & Hlen & Hraise).
  destruct (sort_file f w) as [w' []] eqn:E; cbn in *.
  - destruct (IH w') as (Hd' & Hq' & Hlen'). split_and!.
    + by rewrite Hd'.
    + intros q [Hne Hnin]%not_elem_of_cons. rewrite Hq' by done. by apply Hq.
    + intros Hret. rewrite Hlen', Hlen by done. lia.
  - split_and!; [done| |done]. intros q [Hne _]%not_elem_of_cons. by apply Hq.
Qed.

Lemma main_app pre post w :
  main (pre ++ post) w =
  match main pre w with
  | (w', Py.Returned) => main post w'
  | (w', Py.Raised) => (w', Py.Raised)
  end.
Proof.
  revert w. induction pre as [|f pre IH]; intros w; [done|].
  cbn [app main]. destruct (sort_file f w) as [w' []]; [apply IH|done].
Qed.

End sorter_frame.

(** X7.  The sorter changes nothing but the files it is given: a path that
    is not among its arguments has the content it had, no file is created
    or removed, and a run that completes has printed one line per
    argument. *)
Theorem sorter_touches_named_files_only {parser : Pd.Parser} {csv : Pd.Csv}
    (argv : list string) (w : SortPowerball.world) :
  dom (SortPowerball.files (SortPowerball.run argv w).1)
    = dom (SortPowerball.files w) ∧
  (∀ q, q ∉ SortPowerball.FILES argv →
        SortPowerball.files (SortPowerball.run argv w).1 !! q
        = SortPowerball.files w !! q) ∧
  ((SortPowerball.run argv w).2 = Py.Exit 0 →
   length (SortPowerball.stdout (SortPowerball.run argv w).1)
   = length (SortPowerball.stdout w) + length (SortPowerball.FILES argv)).
Proof.
  destruct (main_frame (SortPowerball.FILES argv) w) as (Hd & Hq & Hlen).
  unfold SortPowerball.run.
  destruct (SortPowerball.main _ w) as [w' []]; cbn in *;
    (split_and!; [done..|]); [by auto|done].
Qed.

(** X8.  A file that [read_csv] refuses stops the sorter: the exception
    escapes [sort_file], the files after it in the argument list are not
    processed (nothing is printed for them and none is rewritten), what was
    done for the files before it stays done, and the exit code is 1. *)
Theorem sorter_stops_at_unreadable_file {parser : Pd.Parser} {csv : Pd.Csv}
    (before after : list string) (f : string)
    (w w1 : SortPowerball.world) (bytes : string) :
  before ++ f :: after ≠ [] →
  SortPowerball.main before w = (w1, Py.Returned) →
  SortPowerball.files w1 !! f = Some bytes →
  Pd.read_csv true bytes = None →
  SortPowerball.run (before ++ f :: after) w = (w1, Py.Exit 1).
Proof.
  intros Hne Hbefore Hf Hr. unfold SortPowerball.run.
  replace (SortPowerball.FILES (before ++ f :: after))
    with (before ++ f :: after) by (by destruct before).
  rewrite main_app, Hbefore. cbn [SortPowerball.main].
  unfold SortPowerball.sort_file. by rewrite Hf, Hr.
Qed.

Lemma sorter_stops_at_unreadable_file_witness :
  SortPowerball.run (parser := Pd.reader) (csv := Pd.plain_csv)
    ["missing.csv"; "empty.csv"; "good.csv"] empty_and_good
  = (SortPowerball.print (SortPowerball.SkipNotFound "missing.csv")
       empty_and_good, Py.Exit 1).
Proof.
  apply (sorter_stops_at_unreadable_file (parser := Pd.reader)
           (csv := Pd.plain_csv) ["missing.csv"] ["good.csv"] "empty.csv"
           empty_and_good _ "").
  - done.
  - by vm_compute.
  - by vm_compute.
  - by vm_compute.
Defined.

(* ===================================================================== *)
(** ** Further properties of the updater *)
(* ===================================================================== *)

Section updater_frame.
Context {parser : Pd.Parser} {csv : Pd.Csv} {http : PowerballUpdater.Http}.
Import PowerballUpdater.

Lemma fetch_since_world date_iso w :
  (fetch_since date_iso w).1 = send (query date_iso) w.
Proof.
  unfold fetch_since. cbv zeta.
  destruct (requests_get (query date_iso)) as [[|row data]|]; reflexivity.
Qed.

Lemma main_frame_updater csv_path w :
  dom (files (main csv_path w).1) = dom (files w) ∧
  (∀ q, q ≠ csv_path → files (main csv_path w).1 !! q = files w !! q) ∧
  ((main csv_path w).2 ≠ Py.Exit 0 → files (main csv_path w).1 = files w) ∧
  length (requests (main csv_path w).1) ≤ S (length (requests w)) ∧
  (main csv_path w).2 ∈ [Py.Exit 0; Py.Exit 1; Py.Exit 2; Py.Exit 3].
Proof.
  unfold main.
  destruct (files w !! csv_path) as [bytes|] eqn:Hf.
  2:{ cbn. split_and!; [done..|lia|set_solver]. }
  destruct (Pd.read_csv false bytes) as [df|].
  2:{ cbn. split_and!; [done..|lia|set_solver]. }
  cbv zeta.
  destruct (pick (Pd.columns df) date_options) as [date_col|].
  2:{ cbn. split_and!; [done..|lia|set_solver]. }
  pose proof (fetch_since_world (last_date_iso date_col df)
                (print (LastDate (last_date_iso date_col df)) w)) as Hw.
  destruct (fetch_since _ _) as [w2 [[|r rs]|]]; cbn in *; subst w2; cbn.
  - split_and!; [done..|rewrite length_app; cbn; lia|set_solver].
  - split_and!; [| |done|rewrite length_app; cbn; lia|set_solver].
    + rewrite dom_insert_L. apply elem_of_dom_2 in Hf.
      apply subseteq_union_1_L. by apply singleton_subseteq_l.
    + intros q Hq. by rewrite lookup_insert_ne.
  - split_and!; [done..|rewrite length_app; cbn; lia|set_solver].
Qed.

End updater_frame.

(** X9.  The updater writes at most the file it is given, creates and
    removes none, sends at most one request, and ends with exit code 0, 1,
    2 or 3; whenever the exit code is not 0 the disk is as it was (there is
    no partial write). *)
Theorem updater_failure_leaves_disk
    {parser : Pd.Parser} {csv : Pd.Csv} {http : PowerballUpdater.Http}
    (csv_path : string) (w : PowerballUpdater.world) :
  dom (PowerballUpdater.files (PowerballUpdater.main csv_path w).1)
    = dom (PowerballUpdater.files w) ∧
  (∀ q, q ≠ csv_path →
        PowerballUpdater.files (PowerballUpdater.main csv_path w).1 !! q
        = PowerballUpdater.files w !! q) ∧
  ((PowerballUpdater.main csv_path w).2 ≠ Py.Exit 0 →
   PowerballUpdater.files (PowerballUpdater.main csv_path w).1
   = PowerballUpdater.files w) ∧
  length (PowerballUpdater.requests (PowerballUpdater.main csv_path w).1)
    ≤ S (length (PowerballUpdater.requests w)) ∧
  (PowerballUpdater.main csv_path w).2
    ∈ [Py.Exit 0; Py.Exit 1; Py.Exit 2; Py.Exit 3].
Proof. apply main_frame_updater. Qed.

(** X10.  When the server has no draw after the last date of the file, the
    updater reports it and leaves the file untouched: the disk is as it was,
    the two lines printed are the last date and the up-to-date notice, one
    request was sent, and the exit code is 0. *)
Theorem updater_up_to_date
    {parser : Pd.Parser} {csv : Pd.Csv} {http : PowerballUpdater.Http}
    (csv_path : string) (w : PowerballUpdater.world) (bytes : string)
    (df : Pd.DataFrame) (date_col : string) :
  PowerballUpdater.files w !! csv_path = Some bytes →
  Pd.read_csv false bytes = Some df →
  PowerballUpdater.pick (Pd.columns df) PowerballUpdater.date_options
    = Some date_col →
  PowerballUpdater.requests_get
    (PowerballUpdater.query (PowerballUpdater.last_date_iso date_col df))
    = Some [] →
  PowerballUpdater.main csv_path w =
    ({| PowerballUpdater.files := PowerballUpdater.files w;
        PowerballUpdater.stdout :=
          PowerballUpdater.stdout w ++
          [PowerballUpdater.LastDate
             (PowerballUpdater.last_date_iso date_col df);
           PowerballUpdater.UpToDate];
        PowerballUpdater.stderr := PowerballUpdater.stderr w;
        PowerballUpdater.requests :=
          PowerballUpdater.requests w ++
          [PowerballUpdater.query
             (PowerballUpdater.last_date_iso date_col df)] |},
     Py.Exit 0).
Proof.
  intros Hf Hr Hp Hq. unfold PowerballUpdater.main.
  rewrite Hf, Hr, Hp. unfold PowerballUpdater.fetch_since. rewrite Hq.
  unfold PowerballUpdater.print, PowerballUpdater.send. cbn.
  by rewrite <-(assoc_L (++)).
Qed.

Lemma updater_up_to_date_witness :
  (PowerballUpdater.main (parser := Pd.reader) (csv := Pd.plain_csv)
     (http := no_news) "powerball.csv"
     (disk "powerball.csv" plain_header_csv)).2 = Py.Exit 0 ∧
  PowerballUpdater.files
    (PowerballUpdater.main (parser := Pd.reader) (csv := Pd.plain_csv)
       (http := no_news) "powerball.csv"
       (disk "powerball.csv" plain_header_csv)).1
  = {[ "powerball.csv" := plain_header_csv ]}.
Proof.
  rewrite (updater_up_to_date (parser := Pd.reader) (csv := Pd.plain_csv)
             (http := no_news) "powerball.csv"
             (disk "powerball.csv" plain_header_csv) plain_header_csv
             {| Pd.columns := ["Draw Date"; "Winning Numbers"; "Multiplier"];
                Pd.rows := [draw "2024-01-03" "1 2 3 4 5 6" "2"] |}
             "Draw Date").
  - by split.
  - by vm_compute.
  - by vm_compute.
  - by vm_compute.
  - done.
Defined.

(** *** The order of dates and Timestamps *)

Local Ltac date_order :=
  unfold date_leb;
  repeat match goal with
  | d : date |- _ => destruct d as [? ? ?]
  end; cbn [year month day] in *;
  repeat match goal with
  | H : context [?x <? ?y] |- _ => destruct (Nat.ltb_spec x y)
  | H : context [?x =? ?y] |- _ => destruct (Nat.eqb_spec x y)
  | H : context [?x <=? ?y] |- _ => destruct (Nat.leb_spec x y)
  | |- context [?x <? ?y] => destruct (Nat.ltb_spec x y)
  | |- context [?x =? ?y] => destruct (Nat.eqb_spec x y)
  | |- context [?x <=? ?y] => destruct (Nat.leb_spec x y)
  end; cbn in *; try done; try lia.

Lemma date_leb_total a b : date_leb a b = false → date_leb b a = true.
Proof. date_order. Qed.

Lemma date_leb_trans a b c :
  date_leb a b = true → date_leb b c = true → date_leb a c = true.
Proof. date_order. Qed.

Lemma date_leb_antisym a b :
  date_leb a b = true → date_leb b a = true → a = b.
Proof. date_order. intros _ _. f_equal; lia. Qed.

Lemma date_leb_refl a : date_leb a a = true.
Proof. date_order. Qed.

Lemma ts_leb_refl a : ts_leb a a = true.
Proof. unfold ts_leb. rewrite decide_True by done. apply N.leb_refl. Qed.

Lemma ts_leb_total a b : ts_leb a b = false → ts_leb b a = true.
Proof.
  unfold ts_leb. destruct (decide (ts_date a = ts_date b)) as [E|E].
  - rewrite decide_True by done. rewrite N.leb_gt, N.leb_le. lia.
  - rewrite decide_False by done. apply date_leb_total.
Qed.

Lemma ts_leb_trans a b c :
  ts_leb a b = true → ts_leb b c = true → ts_leb a c = true.
Proof.
  unfold ts_leb.
  destruct (decide (ts_date a = ts_date b)) as [E1|E1],
           (decide (ts_date b = ts_date c)) as [E2|E2].
  - rewrite decide_True by congruence. rewrite !N.leb_le. lia.
  - rewrite decide_False by congruence. by rewrite E1.
  - rewrite decide_False by congruence. by rewrite <-E2.
  - intros H1 H2. pose proof (date_leb_trans _ _ _ H1 H2) as H3.
    destruct (decide (ts_date a = ts_date c)) as [E3|E3]; [|done].
    rewrite <-E3 in H2. destruct E1. by apply date_leb_antisym.
Qed.

Lemma ts_leb_date a b :
  ts_leb a b = true → date_leb (ts_date a) (ts_date b) = true.
Proof.
  unfold ts_leb. destruct (decide (ts_date a = ts_date b)) as [->|]; [|done].
  intros _. apply date_leb_refl.
Qed.

Lemma series_max_step seen acc v :
  Pd.is_max seen acc →
  Pd.is_max (seen ++ [v])
    match acc, v with
    | Some a, Some b => Some (Pd.ts_max a b)
    | None, _ => v
    | _, None => acc
    end.
Proof.
  unfold Pd.is_max, Pd.ts_max.
  destruct acc as [a|], v as [b|].
  - intros [Hin Hmax]. destruct (ts_leb a b) eqn:E.
    + split; [apply elem_of_app; right; by left|].
      intros t' [Ht|Ht%list_elem_of_singleton]%elem_of_app.
      * eapply ts_leb_trans; [by apply Hmax|done].
      * injection Ht as ->. apply ts_leb_refl.
    + split; [apply elem_of_app; by left|].
      intros t' [Ht|Ht%list_elem_of_singleton]%elem_of_app; [by apply Hmax|].
      injection Ht as ->. by apply ts_leb_total.
  - intros [Hin Hmax]. split; [apply elem_of_app; by left|].
    intros t' [Ht|Ht%list_elem_of_singleton]%elem_of_app; [by apply Hmax|done].
  - intros Hall. split; [apply elem_of_app; right; by left|].
    intros t' [Ht|Ht%list_elem_of_singleton]%elem_of_app.
    + by pose proof (proj1 (Forall_forall _ _) Hall _ Ht).
    + injection Ht as ->. apply ts_leb_refl.
  - intros Hall. apply Forall_app. split; [done|]. by repeat constructor.
Qed.

Lemma series_max_is_max s : Pd.is_max s (Pd.series_max s).
Proof.
  unfold Pd.series_max.
  cut (∀ seen acc, Pd.is_max seen acc →
         Pd.is_max (seen ++ s)
           (foldl (λ acc v,
                     match acc, v with
                     | Some a, Some b => Some (Pd.ts_max a b)
                     | None, _ => v
                     | _, None => acc
                     end) acc s)).
  { intros H. apply (H [] None). constructor. }
  induction s as [|v s IH]; intros seen acc Hacc.
  { by rewrite app_nil_r. }
  cbn [foldl]. rewrite cons_middle, (assoc_L (++)).
  by apply IH, series_max_step.
Qed.

(** X11.  When some value of the date column parses, the since-date of the
    updater is the canonical text of the latest parsed day: it is the day of
    a Timestamp of the column that no Timestamp of the column exceeds. *)
Theorem last_date_iso_is_latest {parser : Pd.Parser}
    (date_col : string) (df : Pd.DataFrame) (ts : Timestamp) :
  Some ts ∈ Pd.to_datetime_cell false <$> Pd.column df date_col →
  ∃ m, Some m ∈ Pd.to_datetime_cell false <$> Pd.column df date_col ∧
       PowerballUpdater.last_date_iso date_col df = isoformat (ts_date m) ∧
       ∀ t', Some t' ∈ Pd.to_datetime_cell false <$> Pd.column df date_col →
             ts_leb t' m = true ∧
             date_leb (ts_date t') (ts_date m) = true.
Proof.
  intros Hts. unfold PowerballUpdater.last_date_iso.
  pose proof (series_max_is_max
                (Pd.to_datetime_cell false <$> Pd.column df date_col)) as Hm.
  unfold Pd.is_max in Hm. destruct (Pd.series_max _) as [m|].
  - destruct Hm as [Hin Hmax]. exists m. split_and!; [done..|].
    intros t' Ht'. split; [by apply Hmax|]. by apply ts_leb_date, Hmax.
  - by pose proof (proj1 (Forall_forall _ _) Hm _ Hts).
Qed.

Lemma last_date_iso_is_latest_witness :
  ∃ m, Some m ∈ Pd.to_datetime_cell (parser := Pd.reader) false
                   <$> Pd.column with_garbage "Draw Date" ∧
       PowerballUpdater.last_date_iso (parser := Pd.reader)
         "Draw Date" with_garbage = isoformat (ts_date m) ∧
       ∀ t', Some t' ∈ Pd.to_datetime_cell (parser := Pd.reader) false
                         <$> Pd.column with_garbage "Draw Date" →
             ts_leb t' m = true ∧
             date_leb (ts_date t') (ts_date m) = true.
Proof.
  apply (last_date_iso_is_latest (parser := Pd.reader) "Draw Date"
           with_garbage (MkTimestamp (Date 2024 1 3) 0)).
  vm_compute. by left.
Defined.

(** X12.  [fetch_since] sends its one request whatever the answer.  When the
    call raises there is no table; otherwise the table has one row per
    record of the response, and the rows are in ascending order of their
    dates, the rows without a date last. *)
Theorem fetch_since_sorted_records
    {parser : Pd.Parser} {http : PowerballUpdater.Http}
    (date_iso : string) (w : PowerballUpdater.world) :
  (PowerballUpdater.fetch_since date_iso w).1
    = PowerballUpdater.send (PowerballUpdater.query date_iso) w ∧
  match PowerballUpdater.requests_get (PowerballUpdater.query date_iso) with
  | None => (PowerballUpdater.fetch_since date_iso w).2 = None
  | Some data =>
      ∃ rows, (PowerballUpdater.fetch_since date_iso w).2 = Some rows ∧
              rows ≡ₚ PowerballUpdater.record_of <$> data ∧
              length rows = length data ∧
              StronglySorted
                (Pd.na_last (λ a b, date_leb a b = true)
                   PowerballUpdater.draw_date) rows
  end.
Proof.
  split; [apply fetch_since_world|].
  unfold PowerballUpdater.fetch_since. cbv zeta.
  destruct (PowerballUpdater.requests_get _) as [[|row data]|]; [| |done].
  - exists []. split_and!; [done..|constructor].
  - eexists. split; [reflexivity|]. split_and!.
    + apply sort_values_perm.
    + by rewrite sort_values_perm, length_fmap.
    + apply (sort_values_sorted date_leb PowerballUpdater.draw_date
               date_leb_total date_leb_trans true).
Qed.





Lemma split_head_spec sep s :
  ∃ rest, s = Py.split_head sep s +:+ rest ∧
          Py.all_chars (λ c, negb (Ascii.eqb c sep)) (Py.split_head sep s)
            = true ∧
          (rest = "" ∨ ∃ rest', rest = String sep rest').
Proof.
  induction s as [|c s (rest & Hs & Hall & Hrest)]; [by exists ""; auto|].
  cbn [Py.split_head]. destruct (Ascii.eqb c sep) eqn:E.
  - apply Ascii.eqb_eq in E as ->. exists (String sep s). by eauto.
  - exists rest. rewrite app_cons, <-Hs. cbn [Py.all_chars]. rewrite E.
    by auto.
Qed.

(** X14.  The date text kept from an API record (line 41) is the part of
    the field before its first [T]: it holds no [T], the field is this text
    followed by nothing or by a rest that begins with [T]; and there is no
    text exactly when the field is absent or empty. *)
Theorem api_date_is_prefix_before_T (v : option string) :
  (PowerballUpdater.api_date v = None ↔ Py.truthy v = false) ∧
  (∀ t, PowerballUpdater.api_date v = Some t →
     ∃ s rest, v = Some s ∧ s = t +:+ rest ∧
               Py.all_chars (λ c, negb (Ascii.eqb c "T")) t = true ∧
               (rest = "" ∨ ∃ rest', rest = String "T" rest')).
Proof.
  unfold PowerballUpdater.api_date. split.
  - destruct (Py.truthy v) eqn:E; [|done]. by destruct v as [[|]|].
  - intros t. destruct (Py.truthy v); [|done]. destruct v as [s|]; [|done].
    intros [= <-]. destruct (split_head_spec "T" s) as (rest & ? & ? & ?).
    by exists s, rest.
Qed.

Section merge_again.
Import PowerballUpdater.

Lemma drop_duplicates_last_id {A K} `{!EqDecision K} (key : A → K) l :
  NoDup (key <$> l) → Pd.drop_duplicates_last key l = l.
Proof.
  induction l as [|x l IH]; [done|].
  rewrite fmap_cons, NoDup_cons. intros [Hx Hl].
  cbn [Pd.drop_duplicates_last]. rewrite bool_decide_eq_false_2 by done.
  by rewrite IH.
Qed.

(** Two tables with one row per key and, for every key, the same row, hold
    the same rows. *)
Lemma same_classes_perm (l1 l2 : list (gmap string string)) :
  NoDup (draw_date_key <$> l1) → NoDup (draw_date_key <$> l2) →
  (∀ k, filter (λ r, draw_date_key r = k) l1 =
        filter (λ r, draw_date_key r = k) l2) →
  l1 ≡ₚ l2.
Proof.
  intros H1 H2 Hcls.
  apply NoDup_Permutation; [by eapply NoDup_fmap_1..|].
  intros r.
  assert (∀ l : list (gmap string string),
            r ∈ l ↔ r ∈ filter (λ r', draw_date_key r' = draw_date_key r) l)
    as Hf.
  { intros l. rewrite list_elem_of_filter. by split; [|intros []]. }
  by rewrite (Hf l1), (Hf l2), Hcls.
Qed.

Lemma merge_sorted_text existing new :
  StronglySorted (Pd.na_last (Pd.direction Pd.str_leb true) draw_date_key)
    (merge existing new).
Proof. apply sort_values_sorted; [apply str_leb_total|apply str_leb_trans]. Qed.

End merge_again.

(** X15.  Merging is idempotent: merging the merged table with the same
    fetched rows once more, or with no rows at all, gives the merged table
    again. *)
Theorem merge_idempotent (existing new : list (gmap string string)) :
  PowerballUpdater.merge (PowerballUpdater.merge existing new) new
    = PowerballUpdater.merge existing new ∧
  PowerballUpdater.merge (PowerballUpdater.merge existing new) []
    = PowerballUpdater.merge existing new.
Proof.
  set (out := PowerballUpdater.merge existing new).
  split.
  - symmetry. apply merge_order_forced; [|apply merge_sorted_text].
    apply same_classes_perm;
      [apply merge_NoDup|apply drop_duplicates_last_NoDup|].
    intros k. subst out.
    rewrite drop_duplicates_last_class, filter_app, last_app.
    rewrite (merge_class existing new k), filter_app, last_app.
    destruct (last (filter _ new)) as [r|]; [done|].
    by destruct (last (filter _ existing)).
  - symmetry. apply merge_order_forced; [|apply merge_sorted_text].
    rewrite app_nil_r, drop_duplicates_last_id; [done|apply merge_NoDup].
Qed.

Section updater_success.
Context {parser : Pd.Parser} {csv : Pd.Csv} {http : PowerballUpdater.Http}.
Import PowerballUpdater.



End updater_success.



(** *** The existing table under the target names *)

Section rename_facts.
Import PowerballUpdater.

(** A cell of a renamed row: when exactly one label of the row is renamed to
    [t], the cell under [t] is the cell that was under that label. *)
Lemma kmap_lookup_unique (f : string → string) (r : gmap string string) t k0 :
  f k0 = t →
  (∀ k, is_Some (r !! k) → f k = t → k = k0) →
  kmap (M2 := gmap string) f r !! t = r !! k0.
Proof.
  intros Hk0 Huniq. unfold kmap.
  destruct (r !! k0) as [v|] eqn:E.
  - apply elem_of_list_to_map_1'.
    + intros y ([k y'] & [= -> ->] & Hin)%list_elem_of_fmap.
      apply elem_of_map_to_list in Hin. cbn in *.
      assert (k = k0) as -> by (apply Huniq; [by eexists|done]).
      congruence.
    + apply list_elem_of_fmap. exists (k0, v). split; [by rewrite <-Hk0|].
      by apply elem_of_map_to_list.
  - apply not_elem_of_list_to_map_1.
    intros (p & -> & ([k y] & -> & Hin)%list_elem_of_fmap)%list_elem_of_fmap.
    apply elem_of_map_to_list in Hin. cbn in *.
    assert (k = k0) as -> by (apply Huniq; [by eexists|done]).
    congruence.
Qed.

Lemma kmap_lookup_none (f : string → string) (r : gmap string string) t :
  (∀ k, is_Some (r !! k) → f k ≠ t) →
  kmap (M2 := gmap string) f r !! t = None.
Proof.
  intros Hno. unfold kmap. apply not_elem_of_list_to_map_1.
  intros (p & -> & ([k y] & -> & Hin)%list_elem_of_fmap)%list_elem_of_fmap.
  apply elem_of_map_to_list in Hin. cbn in *.
  by apply (Hno k); [eexists|].
Qed.

Lemma select_lookup (cols : list string) (m : gmap string string) k :
  filter (λ kv : string * string, kv.1 ∈ cols) m !! k =
  if decide (k ∈ cols) then m !! k else None.
Proof.
  rewrite map_lookup_filter. destruct (m !! k) as [v|]; cbn.
  - by destruct (decide (k ∈ cols)); simplify_option_eq.
  - by destruct (decide (k ∈ cols)).
Qed.

Lemma pick_elem_of cols opts n :
  pick cols opts = Some n → n ∈ opts ∧ n ∈ cols.
Proof.
  intros (i & Hi & Hn & _)%pick_Some. split; [|done].
  by apply list_elem_of_lookup_2 in Hi.
Qed.

Lemma pick_head cols o opts n :
  pick cols (o :: opts) = Some n → n ≠ o → o ∉ cols.
Proof.
  intros (i & Hi & Hn & Hlt)%pick_Some Hne.
  destruct i as [|i]; [by injection Hi as ->|].
  apply (Hlt 0 o); [done|lia].
Qed.

Lemma pick_None cols opts o :
  pick cols opts = None → o ∈ opts → o ∉ cols.
Proof.
  unfold pick. rewrite fmap_None. intros Hf%list_find_None Ho.
  exact (proj1 (Forall_forall _ _) Hf o Ho).
Qed.

End rename_facts.

Section existing_rows.
Import PowerballUpdater.

Lemma rename_cell (M r : gmap string string) t k0 :
  M !! k0 = Some t →
  (∀ k, M !! k = Some t → k = k0) →
  (t ≠ k0 → r !! t = None) →
  kmap (M2 := gmap string) (λ c, default c (M !! c)) r !! t = r !! k0.
Proof.
  intros Hk0 Huniq Hfree. apply kmap_lookup_unique.
  - by rewrite Hk0.
  - intros k [v Hv] Hk. destruct (M !! k) as [t'|] eqn:E; cbn in Hk.
    + subst t'. by apply Huniq.
    + subst k. destruct (decide (t = k0)) as [|Hne]; [done|].
      rewrite Hfree in Hv; done.
Qed.

Lemma rename_cell_id (M r : gmap string string) t :
  M !! t = None →
  (∀ k, M !! k ≠ Some t) →
  kmap (M2 := gmap string) (λ c, default c (M !! c)) r !! t = r !! t.
Proof.
  intros Ht Hno. apply kmap_lookup_unique.
  - by rewrite Ht.
  - intros k _ Hk. destruct (M !! k) as [t'|] eqn:E; cbn in Hk; [|done].
    subst t'. by destruct (Hno k).
Qed.

Lemma date_option_ne d x :
  d ∈ date_options → x ∈ nums_options ++ mult_options → d ≠ x.
Proof.
  intros Hd Hx ->. revert x Hx Hd.
  apply (proj1 (Forall_forall (λ x, x ∈ date_options → False) _)).
  by apply (bool_decide_unpack _).
Qed.

Lemma nums_option_ne n x :
  n ∈ nums_options → x ∈ date_options ++ mult_options → n ≠ x.
Proof.
  intros Hd Hx ->. revert x Hx Hd.
  apply (proj1 (Forall_forall (λ x, x ∈ nums_options → False) _)).
  by apply (bool_decide_unpack _).
Qed.

End existing_rows.
